(** * Cluster field validation of the MetaKube Terraform provider

    A shallow embedding of [metakube/resource_metakube_cluster_validation.go].

    Conventions of the embedding:
    - a Go [interface{}] value is an [iface]; a type assertion [v.(string)]
      that fails panics, which [result] records;
    - a Go [*string] is an [option string], [nil] being [None];
    - a Go [error] built in this file is an [option string] (its message),
      [nil] being [None]; an error returned by the API client is a
      [RemoteError];
    - a slice is a list, the [nil] slice being [[]];
    - the API client is the record [metakubeProviderMeta] of its four
      operations, each a function of the request it is sent;
    - [context.Context] is handed to the transport unchanged and decides no
      branch of this file: it is left out. *)

From Stdlib Require Import String List Bool ZArith Lia DecimalString.
Import ListNotations.
Open Scope string_scope.

(** ** Go values and panics *)

(** A value of type [interface{}]: [nil], a [string], or a value of some
    other dynamic type ([shown] is the text [fmt] prints for it). *)
Inductive iface : Type :=
| INil
| IStr (s : string)
| IOther (shown : string).

(** The outcome of running Go code that may panic. *)
Inductive result (A : Type) : Type :=
| Ok (a : A)
| Panic.
Arguments Ok {A} a.
Arguments Panic {A}.

Definition bind {A B : Type} (r : result A) (f : A -> result B) : result B :=
  match r with
  | Ok a => f a
  | Panic => Panic
  end.

Notation "x <- e ;; k" := (bind e (fun x => k))
  (at level 61, e at next level, right associativity).

(** [v.(string)] *)
Definition assertString (v : iface) : result string :=
  match v with
  | IStr s => Ok s
  | _ => Panic
  end.

(** An [error] value made by [fmt.Errorf]: its message, or [nil]. *)
Definition error : Type := option string.

(** ** package fmt *)
Module fmt.

(** [%v] of a [[]string]: the elements between brackets, a space apart. *)
Definition v_strings (l : list string) : string :=
    "[" ++ String.concat " " l ++ "]".

(** [%v] of an [error]. *)
Definition v_error (err : error) : string :=
    match err with
    | Some msg => msg
    | None => "<nil>"
    end.

(** [%s] of an [interface{}]. *)
Definition s_iface (v : iface) : string :=
    match v with
    | INil => "%!s(<nil>)"
    | IStr s => s
    | IOther shown => shown
    end.

End fmt.

(** ** package strings *)
Module strings.
Definition Join (elems : list string) (sep : string) : string :=
    String.concat sep elems.
End strings.

(** ** package cty: attribute paths *)
Module cty.

Inductive PathStep : Type :=
  | GetAttrStep (name : string)
  | IndexStep (key : Z).

Definition Path : Type := list PathStep.

Definition GetAttrPath (name : string) : Path := [GetAttrStep name].
Definition GetAttr (p : Path) (name : string) : Path :=
    (p ++ [GetAttrStep name])%list.
Definition IndexInt (p : Path) (v : Z) : Path :=
    (p ++ [IndexStep v])%list.

End cty.

(** ** package diag *)
Module diag.

(** [diag.Severity] *)
Inductive severity : Type := Error | Warning.

Record Diagnostic : Type := {
    Severity : severity;
    Summary : string;
    Detail : string;
    AttributePath : cty.Path
  }.

Definition Diagnostics : Type := list Diagnostic.

(** [diag.Errorf(format, a...)], given the formatted text. *)
Definition Errorf (msg : string) : Diagnostics :=
    [ {| Severity := Error; Summary := msg; Detail := ""; AttributePath := [] |} ].

(** [diag.FromErr(err)] for a non-nil [err], given [err.Error()]. *)
Definition FromErr (msg : string) : Diagnostics :=
    [ {| Severity := Error; Summary := msg; Detail := ""; AttributePath := [] |} ].

End diag.

(** ** package schema: the configuration accessor *)
Module schema.

(** [Get key] is the value at [key] ([nil] for a key that holds none);
      [GetOk key] is that value and whether it is set to a non-zero value. *)
Record ResourceData : Type := {
    Get : string -> iface;
    GetOk : string -> iface * bool
  }.

End schema.

(** ** package models: records of the API *)
Module models.

Module OpenstackNetwork.
Record t : Type := { ID : string; Name : string; External : bool }.
End OpenstackNetwork.

Module OpenstackSubnet.
Record t : Type := { ID : string; Name : string }.
End OpenstackSubnet.

(** [Version] is a [models.Semver], which is an [interface{}]. *)
Module MasterVersion.
Record t : Type := { Version : iface }.
End MasterVersion.

(** [cluster.ID] and [cluster.Spec.Version]. *)
Module Cluster.
Record t : Type := { ID : string; SpecVersion : iface }.
End Cluster.

End models.

(** ** package openstack: request parameters *)
Module openstack.

Module ListOpenstackNetworksParams.
Record t : Type := {
      DatacenterName : option string;
      Credential : option string;
      Domain : option string;
      Username : option string;
      Password : option string;
      Tenant : option string;
      ApplicationCredentialID : option string;
      ApplicationCredentialSecret : option string
    }.
End ListOpenstackNetworksParams.

Module ListOpenstackSubnetsParams.
Record t : Type := {
      DatacenterName : option string;
      Credential : option string;
      Domain : option string;
      Username : option string;
      Password : option string;
      Tenant : option string;
      ApplicationCredentialID : option string;
      ApplicationCredentialSecret : option string;
      NetworkID : option string
    }.
End ListOpenstackSubnetsParams.

Definition NewListOpenstackNetworksParams : ListOpenstackNetworksParams.t :=
    ListOpenstackNetworksParams.Build_t None None None None None None None None.

Definition NewListOpenstackSubnetsParams : ListOpenstackSubnetsParams.t :=
    ListOpenstackSubnetsParams.Build_t None None None None None None None None None.

Definition SetNetworkID (v : option string) (p : ListOpenstackSubnetsParams.t)
    : ListOpenstackSubnetsParams.t :=
    let 'ListOpenstackSubnetsParams.Build_t dc cr dom us pw te ai asec _ := p in
    ListOpenstackSubnetsParams.Build_t dc cr dom us pw te ai asec v.

End openstack.

Import models.

(** ** package metakube *)

(** The setters every OpenStack request offers
    ([SetContext] apart: the context is not modelled). *)
Class metakubeResourceClusterGeneralOpenstackRequestParams (P : Type) : Type := {
  SetDatacenterName : option string -> P -> P;
  SetCredential : option string -> P -> P;
  SetDomain : option string -> P -> P;
  SetUsername : option string -> P -> P;
  SetPassword : option string -> P -> P;
  SetTenant : option string -> P -> P;
  SetApplicationCredentialID : option string -> P -> P;
  SetApplicationCredentialSecret : option string -> P -> P
}.

#[export] Instance networksParams_setters :
  metakubeResourceClusterGeneralOpenstackRequestParams
    openstack.ListOpenstackNetworksParams.t := {
  SetDatacenterName v p :=
    let 'openstack.ListOpenstackNetworksParams.Build_t _ cr dom us pw te ai asec := p in
    openstack.ListOpenstackNetworksParams.Build_t v cr dom us pw te ai asec;
  SetCredential v p :=
    let 'openstack.ListOpenstackNetworksParams.Build_t dc _ dom us pw te ai asec := p in
    openstack.ListOpenstackNetworksParams.Build_t dc v dom us pw te ai asec;
  SetDomain v p :=
    let 'openstack.ListOpenstackNetworksParams.Build_t dc cr _ us pw te ai asec := p in
    openstack.ListOpenstackNetworksParams.Build_t dc cr v us pw te ai asec;
  SetUsername v p :=
    let 'openstack.ListOpenstackNetworksParams.Build_t dc cr dom _ pw te ai asec := p in
    openstack.ListOpenstackNetworksParams.Build_t dc cr dom v pw te ai asec;
  SetPassword v p :=
    let 'openstack.ListOpenstackNetworksParams.Build_t dc cr dom us _ te ai asec := p in
    openstack.ListOpenstackNetworksParams.Build_t dc cr dom us v te ai asec;
  SetTenant v p :=
    let 'openstack.ListOpenstackNetworksParams.Build_t dc cr dom us pw _ ai asec := p in
    openstack.ListOpenstackNetworksParams.Build_t dc cr dom us pw v ai asec;
  SetApplicationCredentialID v p :=
    let 'openstack.ListOpenstackNetworksParams.Build_t dc cr dom us pw te _ asec := p in
    openstack.ListOpenstackNetworksParams.Build_t dc cr dom us pw te v asec;
  SetApplicationCredentialSecret v p :=
    let 'openstack.ListOpenstackNetworksParams.Build_t dc cr dom us pw te ai _ := p in
    openstack.ListOpenstackNetworksParams.Build_t dc cr dom us pw te ai v
}.

#[export] Instance subnetsParams_setters :
  metakubeResourceClusterGeneralOpenstackRequestParams
    openstack.ListOpenstackSubnetsParams.t := {
  SetDatacenterName v p :=
    let 'openstack.ListOpenstackSubnetsParams.Build_t _ cr dom us pw te ai asec n := p in
    openstack.ListOpenstackSubnetsParams.Build_t v cr dom us pw te ai asec n;
  SetCredential v p :=
    let 'openstack.ListOpenstackSubnetsParams.Build_t dc _ dom us pw te ai asec n := p in
    openstack.ListOpenstackSubnetsParams.Build_t dc v dom us pw te ai asec n;
  SetDomain v p :=
    let 'openstack.ListOpenstackSubnetsParams.Build_t dc cr _ us pw te ai asec n := p in
    openstack.ListOpenstackSubnetsParams.Build_t dc cr v us pw te ai asec n;
  SetUsername v p :=
    let 'openstack.ListOpenstackSubnetsParams.Build_t dc cr dom _ pw te ai asec n := p in
    openstack.ListOpenstackSubnetsParams.Build_t dc cr dom v pw te ai asec n;
  SetPassword v p :=
    let 'openstack.ListOpenstackSubnetsParams.Build_t dc cr dom us _ te ai asec n := p in
    openstack.ListOpenstackSubnetsParams.Build_t dc cr dom us v te ai asec n;
  SetTenant v p :=
    let 'openstack.ListOpenstackSubnetsParams.Build_t dc cr dom us pw _ ai asec n := p in
    openstack.ListOpenstackSubnetsParams.Build_t dc cr dom us pw v ai asec n;
  SetApplicationCredentialID v p :=
    let 'openstack.ListOpenstackSubnetsParams.Build_t dc cr dom us pw te _ asec n := p in
    openstack.ListOpenstackSubnetsParams.Build_t dc cr dom us pw te v asec n;
  SetApplicationCredentialSecret v p :=
    let 'openstack.ListOpenstackSubnetsParams.Build_t dc cr dom us pw te ai _ n := p in
    openstack.ListOpenstackSubnetsParams.Build_t dc cr dom us pw te ai v n
}.

Record metakubeResourceClusterOpenstackValidationData : Type := {
  dcName : option string;
  domain : option string;
  username : option string;
  password : option string;
  tenant : option string;
  applicationCredentialsID : option string;
  applicationCredentialsSecret : option string;
  network : option string;
  subnetID : option string
}.

Definition setParams {P : Type} `{metakubeResourceClusterGeneralOpenstackRequestParams P}
  (data : metakubeResourceClusterOpenstackValidationData) (p : P) : P :=
  let p := SetDatacenterName (dcName data) p in
  let p := SetDomain (domain data) p in
  let p := SetUsername (username data) p in
  let p := SetPassword (password data) p in
  let p := SetTenant (tenant data) p in
  let p := SetApplicationCredentialID (applicationCredentialsID data) p in
  let p := SetApplicationCredentialSecret (applicationCredentialsSecret data) p in
  p.

Definition strToPtr (s : string) : option string := Some s.

Definition toStrPtrOrNil (v : iface) : result (option string) :=
  match v with
  | INil => Ok None
  | _ => s <- assertString v ;; Ok (strToPtr s)
  end.

Definition newOpenstackValidationData (d : schema.ResourceData)
  : result metakubeResourceClusterOpenstackValidationData :=
  dc <- toStrPtrOrNil (schema.Get d "dc_name") ;;
  us <- toStrPtrOrNil (schema.Get d "spec.0.cloud.0.openstack.0.username") ;;
  pw <- toStrPtrOrNil (schema.Get d "spec.0.cloud.0.openstack.0.password") ;;
  te <- toStrPtrOrNil (schema.Get d "spec.0.cloud.0.openstack.0.tenant") ;;
  ai <- toStrPtrOrNil (schema.Get d "spec.0.cloud.0.openstack.0.application_credentials_id") ;;
  asec <- toStrPtrOrNil (schema.Get d "spec.0.cloud.0.openstack.0.application_credentials_secret") ;;
  nw <- toStrPtrOrNil (schema.Get d "spec.0.cloud.0.openstack.0.network") ;;
  sn <- toStrPtrOrNil (schema.Get d "spec.0.cloud.0.openstack.0.subnet_id") ;;
  Ok {| dcName := dc;
        domain := strToPtr "Default";
        username := us;
        password := pw;
        tenant := te;
        applicationCredentialsID := ai;
        applicationCredentialsSecret := asec;
        network := nw;
        subnetID := sn |}.

(** An error returned by the API client, as this file observes it: the text
    of its [Error()] method, and the text [stringifyResponseError] returns
    for it ([stringifyResponseError] is a function of the provider that this
    file calls and does not define). *)
Record RemoteError : Type := {
  errorText : string;
  stringifyResponseError : string
}.

(** What a client operation returns: [(nil, err)], or [(r, nil)] with the
    payload of [r]. *)
Inductive Response (A : Type) : Type :=
| Failed (err : RemoteError)
| Payload (payload : A).
Arguments Failed {A} err.
Arguments Payload {A} payload.

(** [k.client], as far as this file calls it. *)
Record metakubeProviderMeta : Type := {
  GetMasterVersions : Response (list MasterVersion.t);
  GetClusterUpgradesV2 : string -> string -> Response (list MasterVersion.t);
  ListOpenstackNetworks :
    openstack.ListOpenstackNetworksParams.t -> Response (list OpenstackNetwork.t);
  ListOpenstackSubnets :
    openstack.ListOpenstackSubnetsParams.t -> Response (list OpenstackSubnet.t)
}.

Definition versionPath : cty.Path :=
  cty.GetAttr (cty.IndexInt (cty.GetAttrPath "spec") 0) "version".

Definition openstackPath : cty.Path :=
  cty.IndexInt (cty.GetAttr (cty.IndexInt (cty.GetAttr
    (cty.IndexInt (cty.GetAttrPath "spec") 0) "cloud") 0) "openstack") 0.

(** The loop of [metakubeResourceValidateVersionExistence] and of
    [metakubeResourceClusterValidateVersionUpgrade]: [None] when the loop
    returns from the function, [Some available] when it runs to its end. *)
Fixpoint scanVersions (payload : list MasterVersion.t) (version : string)
  (available : list string) : result (option (list string)) :=
  match payload with
  | [] => Ok (Some available)
  | item :: rest =>
      v <- assertString (MasterVersion.Version item) ;;
      let available := (available ++ [v])%list in
      if String.eqb v version then Ok None
      else scanVersions rest version available
  end.

Definition metakubeResourceClusterValidateVersionUpgrade
  (projectID newVersion : string) (cluster : Cluster.t) (k : metakubeProviderMeta)
  : result diag.Diagnostics :=
  match GetClusterUpgradesV2 k projectID (Cluster.ID cluster) with
  | Failed err => Ok (diag.FromErr (errorText err))
  | Payload payload =>
      found <- scanVersions payload newVersion [] ;;
      match found with
      | None => Ok []
      | Some available =>
          Ok [ {| diag.Severity := diag.Error;
                  diag.Summary := "not allowed upgrade "
                    ++ fmt.s_iface (Cluster.SpecVersion cluster) ++ "->" ++ newVersion;
                  diag.AttributePath := versionPath;
                  diag.Detail := "Please select one of available upgrades: "
                    ++ fmt.v_strings available |} ]
      end
  end.

Definition metakubeResourceValidateVersionExistence
  (d : schema.ResourceData) (k : metakubeProviderMeta) : result diag.Diagnostics :=
  version <- assertString (schema.Get d "spec.0.version") ;;
  match GetMasterVersions k with
  | Failed err => Ok (diag.Errorf (stringifyResponseError err))
  | Payload payload =>
      found <- scanVersions payload version [] ;;
      match found with
      | None => Ok []
      | Some available =>
          Ok [ {| diag.Severity := diag.Error;
                  diag.Summary := "unknown version " ++ version;
                  diag.AttributePath := versionPath;
                  diag.Detail := "Please select one of available versions: "
                    ++ fmt.v_strings available |} ]
      end
  end.

Fixpoint findNetwork (list : list OpenstackNetwork.t) (network : string) (external : bool)
  : option OpenstackNetwork.t :=
  match list with
  | [] => None
  | item :: rest =>
      if String.eqb (OpenstackNetwork.Name item) network
         && Bool.eqb (OpenstackNetwork.External item) external
      then Some item
      else findNetwork rest network external
  end.

Fixpoint findSubnet (list : list OpenstackSubnet.t) (id : string)
  : option OpenstackSubnet.t :=
  match list with
  | [] => None
  | item :: rest =>
      if String.eqb (OpenstackSubnet.ID item) id then Some item
      else findSubnet rest id
  end.

Definition getNetwork (k : metakubeProviderMeta)
  (data : metakubeResourceClusterOpenstackValidationData) (name : string) (external : bool)
  : option OpenstackNetwork.t * list OpenstackNetwork.t * error :=
  let p := openstack.NewListOpenstackNetworksParams in
  let p := setParams data p in
  match ListOpenstackNetworks k p with
  | Failed err =>
      (None, [], Some ("find network instance " ++ stringifyResponseError err))
  | Payload payload =>
      match findNetwork payload name external with
      | None => (None, payload, Some ("network `" ++ name ++ "` not found"))
      | Some ret => (Some ret, payload, None)
      end
  end.

(** [*data.subnetID] is evaluated only after a successful call. *)
Definition getSubnet (k : metakubeProviderMeta)
  (data : metakubeResourceClusterOpenstackValidationData) (networkID : string)
  : result (list OpenstackSubnet.t * bool * error) :=
  let p := openstack.NewListOpenstackSubnetsParams in
  let p := setParams data p in
  let p := openstack.SetNetworkID (Some networkID) p in
  match ListOpenstackSubnets k p with
  | Failed err =>
      Ok ([], false, Some ("list network subnets: " ++ stringifyResponseError err))
  | Payload payload =>
      match subnetID data with
      | None => Panic
      | Some id =>
          Ok (payload, match findSubnet payload id with Some _ => true | None => false end,
              None)
      end
  end.

Definition validateOpenstackNetworkExistsIfSet
  (d : schema.ResourceData) (k : metakubeProviderMeta) (field : string) (external : bool)
  : result (list OpenstackNetwork.t * error) :=
  let '(value, ok) := schema.GetOk d field in
  if negb ok then Ok ([], None)
  else
    data <- newOpenstackValidationData d ;;
    name <- assertString value ;;
    let '(_, all, err) := getNetwork k data name external in
    Ok (all, err).

Definition metakubeResourceClusterValidateFloatingIPPool
  (d : schema.ResourceData) (k : metakubeProviderMeta) : result diag.Diagnostics :=
  r <- validateOpenstackNetworkExistsIfSet d k
         "spec.0.cloud.0.openstack.0.floating_ip_pool" true ;;
  let '(nets, err) := r in
  match err with
  | Some _ =>
      let diagnoseDetail :=
        if (0 <? length nets)%nat then
          let names :=
            map OpenstackNetwork.Name (filter (fun n => OpenstackNetwork.External n) nets) in
          "We found following floating IP pools: " ++ fmt.v_strings names
        else "" in
      Ok [ {| diag.Severity := diag.Error;
              diag.Summary := "invalid value: " ++ fmt.v_error err;
              diag.AttributePath := cty.GetAttr openstackPath "floating_ip_pool";
              diag.Detail := diagnoseDetail |} ]
  | None => Ok []
  end.

(** [p != nil && *p != ""] *)
Definition nonEmpty (p : option string) : bool :=
  match p with
  | Some s => negb (String.eqb s "")
  | None => false
  end.

(** [if !flag { details = append(details, msg) }] *)
Definition appendUnless (flag : bool) (msg : string) (details : list string)
  : list string :=
  if negb flag then (details ++ [msg])%list else details.

(** The body of [metakubeResourceClusterValidateAccessCredentialsSet] once
    [data] is built. *)
Definition accessCredentialsDiagnostics
  (data : metakubeResourceClusterOpenstackValidationData) : diag.Diagnostics :=
  let username := nonEmpty (username data) in
  let password := nonEmpty (password data) in
  let tenant := nonEmpty (tenant data) in
  let applicationCredentialsID := nonEmpty (applicationCredentialsID data) in
  let applicationCredentialsSecret := nonEmpty (applicationCredentialsSecret data) in
  if (username || password || tenant)
     && (applicationCredentialsID || applicationCredentialsSecret)
  then
    [ {| diag.Severity := diag.Error;
         diag.Summary := "Please use either username, password, tenant or application_credentials_id, application_credentials_secret, not both";
         diag.AttributePath := openstackPath;
         diag.Detail := "" |} ]
  else if (username || password || tenant)
          && (negb username || negb password || negb tenant)
  then
    let details := [] in
    let details := appendUnless username "username not set" details in
    let details := appendUnless password "password not set" details in
    let details := appendUnless tenant "tenant not set" details in
    [ {| diag.Severity := diag.Error;
         diag.Summary := "Please set all username, password, tenant fields or use application_credentials_id, application_credentials_secret fields";
         diag.AttributePath := openstackPath;
         diag.Detail := strings.Join details ", " |} ]
  else if (applicationCredentialsID || applicationCredentialsSecret)
          && (negb applicationCredentialsID || negb applicationCredentialsSecret)
  then
    let details := [] in
    let details :=
      appendUnless applicationCredentialsID "application_credentials_id not set" details in
    let details :=
      appendUnless applicationCredentialsSecret "application_credentials_secret not set"
        details in
    [ {| diag.Severity := diag.Error;
         diag.Summary := "Please set both application_credentials_id, application_credentials_secret fields";
         diag.AttributePath := openstackPath;
         diag.Detail := strings.Join details ", " |} ]
  else [].

Definition metakubeResourceClusterValidateAccessCredentialsSet
  (d : schema.ResourceData) : result diag.Diagnostics :=
  data <- newOpenstackValidationData d ;;
  Ok (accessCredentialsDiagnostics data).

Definition metakubeResourceClusterValidateOpenstackNetwork
  (d : schema.ResourceData) (k : metakubeProviderMeta) : result diag.Diagnostics :=
  r <- validateOpenstackNetworkExistsIfSet d k
         "spec.0.cloud.0.openstack.0.network" false ;;
  let '(allnets, err) := r in
  match err with
  | Some _ =>
      let names :=
        map OpenstackNetwork.Name
          (filter (fun n => Bool.eqb (OpenstackNetwork.External n) false) allnets) in
      let diagnoseDetail :=
        if (0 <? length names)%nat
        then "We found following networks: " ++ fmt.v_strings names
        else "" in
      Ok [ {| diag.Severity := diag.Error;
              diag.Summary := "invalid value: " ++ fmt.v_error err;
              diag.AttributePath := cty.GetAttr openstackPath "network";
              diag.Detail := diagnoseDetail |} ]
  | None => Ok []
  end.

(** [fmt.Sprintf("%s/%s", i.Name, i.ID)] *)
Definition subnetNameID (i : OpenstackSubnet.t) : string :=
  OpenstackSubnet.Name i ++ "/" ++ OpenstackSubnet.ID i.

Definition diagnoseOpenstackSubnetWithIDExistsIfSet
  (d : schema.ResourceData) (k : metakubeProviderMeta) : result diag.Diagnostics :=
  data <- newOpenstackValidationData d ;;
  match network data, subnetID data with
  | Some name, Some _ =>
      let '(network, _, err) := getNetwork k data name true in
      match err with
      | Some _ => Ok []
      | None =>
          match network with
          | None => Panic
          | Some network =>
              r <- getSubnet k data (OpenstackNetwork.ID network) ;;
              let '(subnets, ok, err) := r in
              if ok then Ok []
              else
                let diagnoseDetail :=
                  if (0 <? length subnets)%nat then
                    let tmp := map subnetNameID subnets in
                    "We found following subnets (name/id): " ++ fmt.v_strings tmp
                  else "" in
                Ok [ {| diag.Severity := diag.Error;
                        diag.Summary := "invalid value: " ++ fmt.v_error err;
                        diag.AttributePath := cty.GetAttr openstackPath "subnetID";
                        diag.Detail := diagnoseDetail |} ]
          end
      end
  | _, _ => Ok []
  end.

Definition metakubeResourceClusterValidateClusterFields
  (d : schema.ResourceData) (k : metakubeProviderMeta) : result diag.Diagnostics :=
  ret <- metakubeResourceValidateVersionExistence d k ;;
  let '(_, ok) := schema.GetOk d "spec.0.cloud.0.openstack.0" in
  if negb ok then Ok ret
  else
    fip <- metakubeResourceClusterValidateFloatingIPPool d k ;;
    let ret := (ret ++ fip)%list in
    net <- metakubeResourceClusterValidateOpenstackNetwork d k ;;
    let ret := (ret ++ net)%list in
    cred <- metakubeResourceClusterValidateAccessCredentialsSet d ;;
    let ret := (ret ++ cred)%list in
    sub <- diagnoseOpenstackSubnetWithIDExistsIfSet d k ;;
    Ok (ret ++ sub)%list.


(** ** Attribute paths and configuration keys *)

(** The key [schema.ResourceData] uses for the place a [cty.Path] points at:
    the steps joined by dots. *)
Definition stepKey (s : cty.PathStep) : string :=
  match s with
  | cty.GetAttrStep name => name
  | cty.IndexStep key => NilEmpty.string_of_int (Z.to_int key)
  end.

Definition pathKey (p : cty.Path) : string :=
  String.concat "." (map stepKey p).

(** The configuration keys this file reads from the resource. *)
Definition resourceFields : list string :=
  [ "dc_name";
    "spec.0.version";
    "spec.0.cloud.0.openstack.0";
    "spec.0.cloud.0.openstack.0.username";
    "spec.0.cloud.0.openstack.0.password";
    "spec.0.cloud.0.openstack.0.tenant";
    "spec.0.cloud.0.openstack.0.application_credentials_id";
    "spec.0.cloud.0.openstack.0.application_credentials_secret";
    "spec.0.cloud.0.openstack.0.network";
    "spec.0.cloud.0.openstack.0.subnet_id";
    "spec.0.cloud.0.openstack.0.floating_ip_pool" ].

(** An attribute path resolves to a field of the resource when its key is
    one of those. *)
Definition resolvesToField (p : cty.Path) : bool :=
  existsb (String.eqb (pathKey p)) resourceFields.

(** ** Concrete configurations and clients *)

Definition lookupField (fields : list (string * string)) (key : string) : string :=
  match find (fun kv => String.eqb (fst kv) key) fields with
  | Some kv => snd kv
  | None => ""
  end.

(** A configuration as the SDK presents it: every string field holds a
    string, the empty one when it is not set, and [GetOk] reports a field
    set when its value is not empty; [openstackBlock] tells whether the
    OpenStack cloud block is there. *)
Definition resourceData (fields : list (string * string)) (openstackBlock : bool)
  : schema.ResourceData :=
  {| schema.Get := fun key => IStr (lookupField fields key);
     schema.GetOk := fun key =>
       if String.eqb key "spec.0.cloud.0.openstack.0"
       then (IOther "map[]", openstackBlock)
       else let v := lookupField fields key in (IStr v, negb (String.eqb v "")) |}.

Definition masterVersions (vs : list string) : list MasterVersion.t :=
  map (fun v => MasterVersion.Build_t (IStr v)) vs.

(** The client that answers every call with the given responses. *)
Definition clientOf
  (versions upgrades : Response (list MasterVersion.t))
  (networks : Response (list OpenstackNetwork.t))
  (subnets : string -> Response (list OpenstackSubnet.t)) : metakubeProviderMeta :=
  {| GetMasterVersions := versions;
     GetClusterUpgradesV2 := fun _ _ => upgrades;
     ListOpenstackNetworks := fun _ => networks;
     ListOpenstackSubnets := fun p =>
       match openstack.ListOpenstackSubnetsParams.NetworkID p with
       | Some id => subnets id
       | None => Payload []
       end |}.

Definition connectionRefused : RemoteError :=
  {| errorText := "dial tcp: connection refused";
     stringifyResponseError := "connection refused" |}.

(** ** Properties used by the statements *)

(** A rule that returns, returns at most one diagnostic. *)
Definition atMostOne (r : result diag.Diagnostics) : Prop :=
  forall ds, r = Ok ds -> (length ds <= 1)%nat.

Definition returns {A : Type} (r : result A) : Prop :=
  exists a, r = Ok a.

(** Every diagnostic of a result points at a field of the resource. *)
Definition pathsResolve (r : result diag.Diagnostics) : Prop :=
  forall ds dg, r = Ok ds -> In dg ds ->
    resolvesToField (diag.AttributePath dg) = true.

Definition isString (v : iface) : bool :=
  match v with
  | IStr _ => true
  | _ => false
  end.

Definition stringOrNil (v : iface) : bool :=
  match v with
  | IOther _ => false
  | _ => true
  end.

(** The keys [newOpenstackValidationData] reads. *)
Definition openstackStringKeys : list string :=
  [ "dc_name";
    "spec.0.cloud.0.openstack.0.username";
    "spec.0.cloud.0.openstack.0.password";
    "spec.0.cloud.0.openstack.0.tenant";
    "spec.0.cloud.0.openstack.0.application_credentials_id";
    "spec.0.cloud.0.openstack.0.application_credentials_secret";
    "spec.0.cloud.0.openstack.0.network";
    "spec.0.cloud.0.openstack.0.subnet_id" ].

(** A configuration whose string fields hold strings, as the schema of the
    resource has it. *)
Definition stringTypedConfig (d : schema.ResourceData) : Prop :=
  isString (schema.Get d "spec.0.version") = true
  /\ Forall (fun key => stringOrNil (schema.Get d key) = true) openstackStringKeys
  /\ Forall (fun key => snd (schema.GetOk d key) = true ->
                        isString (fst (schema.GetOk d key)) = true)
       [ "spec.0.cloud.0.openstack.0.floating_ip_pool";
         "spec.0.cloud.0.openstack.0.network" ].

Definition stringVersions (payload : list MasterVersion.t) : Prop :=
  Forall (fun item => isString (MasterVersion.Version item) = true) payload.

(** A client whose version lists hold strings. *)
Definition stringTypedClient (k : metakubeProviderMeta) : Prop :=
  (forall payload, GetMasterVersions k = Payload payload -> stringVersions payload)
  /\ (forall projectID clusterID payload,
        GetClusterUpgradesV2 k projectID clusterID = Payload payload ->
        stringVersions payload).

(** The diagnostics of several rules, one after the other. *)
Definition concatDiagnostics (rs : list (result diag.Diagnostics))
  : result diag.Diagnostics :=
  fold_right (fun r acc => ds <- r ;; rest <- acc ;; Ok (ds ++ rest)%list) (Ok []) rs.

(** ** Scenarios *)

Definition noSubnets : string -> Response (list OpenstackSubnet.t) :=
  fun _ => Payload [].

Definition twoVersions : Response (list MasterVersion.t) :=
  Payload (masterVersions ["1.25.0"; "1.26.0"]).

(** Basic-auth and application credentials at once. *)
Definition bothStylesConfig : schema.ResourceData :=
  resourceData
    [ ("spec.0.version", "1.26.0");
      ("spec.0.cloud.0.openstack.0.password", "secret");
      ("spec.0.cloud.0.openstack.0.application_credentials_id", "app-1") ] true.

(** Only the user name of the basic-auth fields. *)
Definition usernameOnlyConfig : schema.ResourceData :=
  resourceData
    [ ("spec.0.version", "1.26.0");
      ("spec.0.cloud.0.openstack.0.username", "alice") ] true.

Definition extNet : OpenstackNetwork.t :=
  {| OpenstackNetwork.ID := "n0"; OpenstackNetwork.Name := "ext-net";
     OpenstackNetwork.External := true |}.

Definition prodNet : OpenstackNetwork.t :=
  {| OpenstackNetwork.ID := "n1"; OpenstackNetwork.Name := "prod-net";
     OpenstackNetwork.External := false |}.

Definition subnetS1 : OpenstackSubnet.t :=
  {| OpenstackSubnet.ID := "s1"; OpenstackSubnet.Name := "" |}.

Definition subnetS2 : OpenstackSubnet.t :=
  {| OpenstackSubnet.ID := "s2"; OpenstackSubnet.Name := "" |}.

(** The subnets s1 and s2 on the network [networkID], none elsewhere. *)
Definition subnetsOn (networkID : string) : string -> Response (list OpenstackSubnet.t) :=
  fun id => if String.eqb id networkID then Payload [subnetS1; subnetS2] else Payload [].

(** The network ext-net and the subnet s9 are asked for. *)
Definition extNetConfig : schema.ResourceData :=
  resourceData
    [ ("spec.0.version", "1.26.0");
      ("spec.0.cloud.0.openstack.0.network", "ext-net");
      ("spec.0.cloud.0.openstack.0.subnet_id", "s9") ] true.

(** What [newOpenstackValidationData] builds from [extNetConfig]. *)
Definition extNetData : metakubeResourceClusterOpenstackValidationData :=
  {| dcName := Some ""; domain := Some "Default"; username := Some "";
     password := Some ""; tenant := Some "";
     applicationCredentialsID := Some ""; applicationCredentialsSecret := Some "";
     network := Some "ext-net"; subnetID := Some "s9" |}.

(** ext-net is an external network; listing its subnets fails. *)
Definition subnetListingFails : metakubeProviderMeta :=
  clientOf twoVersions (Payload []) (Payload [prodNet; extNet])
    (fun _ => Failed connectionRefused).

(** ext-net is an external network with the subnets s1 and s2. *)
Definition extNetClient : metakubeProviderMeta :=
  clientOf twoVersions (Payload []) (Payload [prodNet; extNet]) (subnetsOn "n0").

(** The scenario of the specification: the network prod-net, not external,
    with the subnets s1 and s2, and the subnet s9 asked for. *)
Definition prodNetConfig : schema.ResourceData :=
  resourceData
    [ ("spec.0.version", "1.26.0");
      ("spec.0.cloud.0.openstack.0.network", "prod-net");
      ("spec.0.cloud.0.openstack.0.subnet_id", "s9") ] true.

Definition prodNetClient : metakubeProviderMeta :=
  clientOf twoVersions (Payload []) (Payload [prodNet]) (subnetsOn "n1").

(** The floating IP pool ext-pool is asked for. *)
Definition floatingPoolConfig : schema.ResourceData :=
  resourceData
    [ ("spec.0.version", "1.26.0");
      ("spec.0.cloud.0.openstack.0.floating_ip_pool", "ext-pool") ] true.

Definition floatingPoolData : metakubeResourceClusterOpenstackValidationData :=
  {| dcName := Some ""; domain := Some "Default"; username := Some "";
     password := Some ""; tenant := Some "";
     applicationCredentialsID := Some ""; applicationCredentialsSecret := Some "";
     network := Some ""; subnetID := Some "" |}.

(** The master-version call fails. *)
Definition versionsFail : metakubeProviderMeta :=
  clientOf (Failed connectionRefused) (Payload []) (Payload [prodNet]) noSubnets.

(** No OpenStack block; the version asked for is unknown. *)
Definition noOpenstackConfig : schema.ResourceData :=
  resourceData [ ("spec.0.version", "1.99.0") ] false.

(** A cluster at 1.25.0, and a client that offers it the upgrade 1.26.0. *)
Definition oldCluster : Cluster.t :=
  {| Cluster.ID := "c1"; Cluster.SpecVersion := IStr "1.25.0" |}.

Definition upgradeClient : metakubeProviderMeta :=
  clientOf twoVersions (Payload (masterVersions ["1.26.0"])) (Payload [prodNet; extNet])
    (subnetsOn "n0").

(** Every diagnostic of a result is an error. *)
Definition allErrors (r : result diag.Diagnostics) : Prop :=
  forall ds dg, r = Ok ds -> In dg ds -> diag.Severity dg = diag.Error.

(** The [interface{}] value a [*string] was made from by [toStrPtrOrNil]. *)
Definition ptrValue (p : option string) : iface :=
  match p with
  | None => INil
  | Some s => IStr s
  end.

(** What [newOpenstackValidationData] builds from [resourceData fields _]. *)
Definition snapshotOf (fields : list (string * string))
  : metakubeResourceClusterOpenstackValidationData :=
  {| dcName := Some (lookupField fields "dc_name");
     domain := Some "Default";
     username := Some (lookupField fields "spec.0.cloud.0.openstack.0.username");
     password := Some (lookupField fields "spec.0.cloud.0.openstack.0.password");
     tenant := Some (lookupField fields "spec.0.cloud.0.openstack.0.tenant");
     applicationCredentialsID :=
       Some (lookupField fields "spec.0.cloud.0.openstack.0.application_credentials_id");
     applicationCredentialsSecret :=
       Some (lookupField fields "spec.0.cloud.0.openstack.0.application_credentials_secret");
     network := Some (lookupField fields "spec.0.cloud.0.openstack.0.network");
     subnetID := Some (lookupField fields "spec.0.cloud.0.openstack.0.subnet_id") |}.

(** The upgrade call fails. *)
Definition upgradesFail : metakubeProviderMeta :=
  clientOf twoVersions (Failed connectionRefused) (Payload [prodNet; extNet]) noSubnets.

(** The network call fails. *)
Definition networksFail : metakubeProviderMeta :=
  clientOf twoVersions (Payload []) (Failed connectionRefused) noSubnets.

(** The pool ext-net and the network prod-net are asked for. *)
Definition poolAndNetworkFields : list (string * string) :=
  [ ("spec.0.version", "1.26.0");
    ("spec.0.cloud.0.openstack.0.floating_ip_pool", "ext-net");
    ("spec.0.cloud.0.openstack.0.network", "prod-net") ].

(** The same name, ext-net, is asked for as pool and as network. *)
Definition sameNameFields : list (string * string) :=
  [ ("spec.0.version", "1.26.0");
    ("spec.0.cloud.0.openstack.0.floating_ip_pool", "ext-net");
    ("spec.0.cloud.0.openstack.0.network", "ext-net") ].

(** The pool ext-pool and the network lab-net, neither of which exists. *)
Definition unknownNamesFields : list (string * string) :=
  [ ("spec.0.version", "1.26.0");
    ("spec.0.cloud.0.openstack.0.floating_ip_pool", "ext-pool");
    ("spec.0.cloud.0.openstack.0.network", "lab-net") ].

(** All three basic-auth fields. *)
Definition basicAuthFields : list (string * string) :=
  [ ("spec.0.version", "1.26.0");
    ("spec.0.cloud.0.openstack.0.username", "alice");
    ("spec.0.cloud.0.openstack.0.password", "secret");
    ("spec.0.cloud.0.openstack.0.tenant", "lab") ].

(** User name and password, no tenant. *)
Definition noTenantFields : list (string * string) :=
  [ ("spec.0.version", "1.26.0");
    ("spec.0.cloud.0.openstack.0.username", "alice");
    ("spec.0.cloud.0.openstack.0.password", "secret") ].

(** The application credential id without its secret. *)
Definition appIdOnlyFields : list (string * string) :=
  [ ("spec.0.version", "1.26.0");
    ("spec.0.cloud.0.openstack.0.application_credentials_id", "app-1") ].

(** The network ext-net and its subnet s1. *)
Definition extNetS1Fields : list (string * string) :=
  [ ("spec.0.version", "1.26.0");
    ("spec.0.cloud.0.openstack.0.network", "ext-net");
    ("spec.0.cloud.0.openstack.0.subnet_id", "s1") ].

Definition prodNetFields : list (string * string) :=
  [ ("spec.0.version", "1.26.0");
    ("spec.0.cloud.0.openstack.0.network", "prod-net");
    ("spec.0.cloud.0.openstack.0.subnet_id", "s9") ].

Definition extNetFields : list (string * string) :=
  [ ("spec.0.version", "1.26.0");
    ("spec.0.cloud.0.openstack.0.network", "ext-net");
    ("spec.0.cloud.0.openstack.0.subnet_id", "s9") ].

(** A version list whose second entry is not a string. *)
Definition brokenVersions : metakubeProviderMeta :=
  clientOf
    (Payload (masterVersions ["1.25.0"] ++ [MasterVersion.Build_t INil]
              ++ masterVersions ["1.26.0"])%list)
    (Payload []) (Payload []) noSubnets.

(** ** The version loop *)

Lemma scanVersions_strings (vs : list string) (version : string) :
  forall available,
    scanVersions (masterVersions vs) version available =
    if existsb (fun v => String.eqb v version) vs
    then Ok None
    else Ok (Some (available ++ vs)%list).
Proof.
  induction vs as [|v vs IH]; intros available; simpl.
  - now rewrite app_nil_r.
  - destruct (String.eqb v version); simpl; [reflexivity|].
    rewrite IH. now rewrite <- app_assoc.
Qed.

Lemma existsb_eqb_In (vs : list string) (version : string) :
  existsb (fun v => String.eqb v version) vs = true <-> In version vs.
Proof.
  rewrite existsb_exists. split.
  - intros [v [Hin Heq]]. apply String.eqb_eq in Heq. now subst.
  - intros Hin. exists version. split; [assumption|apply String.eqb_refl].
Qed.

Lemma scanVersions_some_or_none (payload : list MasterVersion.t) (version : string) :
  stringVersions payload ->
  forall available, returns (scanVersions payload version available).
Proof.
  induction 1 as [|item rest Hitem _ IH]; intros available; simpl.
  - now eexists.
  - destruct (MasterVersion.Version item); try discriminate. simpl.
    destruct (String.eqb s version); [now eexists|apply IH].
Qed.

(** ** C5: the version-existence rule *)

(** C5. When the requested version [V] is a string and the master-version
    call returns the versions [vs]: if [V] is not among [vs] the rule yields
    exactly one error diagnostic, on the version field, with summary
    "unknown version V" and a detail that lists all of [vs]; if [V] is among
    [vs] it yields no diagnostic. *)
Theorem version_existence_unknown_or_known
  (d : schema.ResourceData) (k : metakubeProviderMeta) (V : string) (vs : list string) :
  schema.Get d "spec.0.version" = IStr V ->
  GetMasterVersions k = Payload (masterVersions vs) ->
  (~ In V vs ->
   metakubeResourceValidateVersionExistence d k =
   Ok [ {| diag.Severity := diag.Error;
           diag.Summary := "unknown version " ++ V;
           diag.AttributePath :=
             [cty.GetAttrStep "spec"; cty.IndexStep 0; cty.GetAttrStep "version"];
           diag.Detail := "Please select one of available versions: ["
                          ++ String.concat " " vs ++ "]" |} ])
  /\ (In V vs -> metakubeResourceValidateVersionExistence d k = Ok []).
Proof.
  intros Hget Hremote.
  unfold metakubeResourceValidateVersionExistence.
  rewrite Hget, Hremote. simpl. rewrite scanVersions_strings.
  split; intros HV.
  - destruct (existsb _ vs) eqn:E.
    + apply existsb_eqb_In in E. contradiction.
    + reflexivity.
  - apply existsb_eqb_In in HV. now rewrite HV.
Qed.

(** The scenario of the specification: version 1.99.0 against the remote
    list 1.25.0, 1.26.0. *)
Lemma version_existence_unknown_or_known_witness :
  metakubeResourceValidateVersionExistence
    (resourceData [("spec.0.version", "1.99.0")] false)
    (clientOf (Payload (masterVersions ["1.25.0"; "1.26.0"])) (Payload [])
       (Payload []) (fun _ => Payload []))
  = Ok [ {| diag.Severity := diag.Error;
            diag.Summary := "unknown version 1.99.0";
            diag.AttributePath :=
              [cty.GetAttrStep "spec"; cty.IndexStep 0; cty.GetAttrStep "version"];
            diag.Detail := "Please select one of available versions: [1.25.0 1.26.0]" |} ]
  /\ metakubeResourceValidateVersionExistence
       (resourceData [("spec.0.version", "1.26.0")] false)
       (clientOf (Payload (masterVersions ["1.25.0"; "1.26.0"])) (Payload [])
          (Payload []) (fun _ => Payload []))
     = Ok [].
Proof.
  split.
  - apply (proj1 (version_existence_unknown_or_known
                    (resourceData [("spec.0.version", "1.99.0")] false)
                    (clientOf (Payload (masterVersions ["1.25.0"; "1.26.0"])) (Payload [])
                       (Payload []) (fun _ => Payload []))
                    "1.99.0" ["1.25.0"; "1.26.0"] eq_refl eq_refl)).
    intros [H|[H|[]]]; discriminate H.
  - apply (proj2 (version_existence_unknown_or_known
                    (resourceData [("spec.0.version", "1.26.0")] false)
                    (clientOf (Payload (masterVersions ["1.25.0"; "1.26.0"])) (Payload [])
                       (Payload []) (fun _ => Payload []))
                    "1.26.0" ["1.25.0"; "1.26.0"] eq_refl eq_refl)).
    right; left; reflexivity.
Defined.

(** ** C7, C8: the credential rule *)

Section Credentials.

Variable d : schema.ResourceData.
Variable data : metakubeResourceClusterOpenstackValidationData.
Hypothesis Hdata : newOpenstackValidationData d = Ok data.

(** C7. When one of username, password, tenant is non-empty and one of the
    two application-credential fields is non-empty, the credential rule
    yields the exclusivity diagnostic, on the OpenStack block, and nothing
    else. *)
Theorem credentials_both_styles_exclusive :
  nonEmpty (username data) || nonEmpty (password data) || nonEmpty (tenant data) = true ->
  nonEmpty (applicationCredentialsID data)
    || nonEmpty (applicationCredentialsSecret data) = true ->
  metakubeResourceClusterValidateAccessCredentialsSet d =
  Ok [ {| diag.Severity := diag.Error;
          diag.Summary := "Please use either username, password, tenant or application_credentials_id, application_credentials_secret, not both";
          diag.AttributePath :=
            [cty.GetAttrStep "spec"; cty.IndexStep 0; cty.GetAttrStep "cloud";
             cty.IndexStep 0; cty.GetAttrStep "openstack"; cty.IndexStep 0];
          diag.Detail := "" |} ].
Proof.
  intros Hbasic Happ.
  unfold metakubeResourceClusterValidateAccessCredentialsSet.
  rewrite Hdata. simpl. unfold accessCredentialsDiagnostics.
  rewrite Hbasic, Happ. reflexivity.
Qed.

(** C8. When exactly one of username, password, tenant is non-empty and no
    application-credential field is, the credential rule yields exactly one
    error diagnostic, whose detail names the two basic-auth fields that are
    missing, in the order username, password, tenant. *)
Theorem credentials_one_basic_field_names_missing :
  nonEmpty (applicationCredentialsID data) = false ->
  nonEmpty (applicationCredentialsSecret data) = false ->
  ((if nonEmpty (username data) then 1 else 0)
   + (if nonEmpty (password data) then 1 else 0)
   + (if nonEmpty (tenant data) then 1 else 0) = 1)%nat ->
  exists detail,
    metakubeResourceClusterValidateAccessCredentialsSet d =
    Ok [ {| diag.Severity := diag.Error;
            diag.Summary := "Please set all username, password, tenant fields or use application_credentials_id, application_credentials_secret fields";
            diag.AttributePath :=
              [cty.GetAttrStep "spec"; cty.IndexStep 0; cty.GetAttrStep "cloud";
               cty.IndexStep 0; cty.GetAttrStep "openstack"; cty.IndexStep 0];
            diag.Detail := detail |} ]
    /\ (nonEmpty (username data) = true -> detail = "password not set, tenant not set")
    /\ (nonEmpty (password data) = true -> detail = "username not set, tenant not set")
    /\ (nonEmpty (tenant data) = true -> detail = "username not set, password not set").
Proof.
  intros Hid Hsecret Hone.
  unfold metakubeResourceClusterValidateAccessCredentialsSet.
  rewrite Hdata. simpl. unfold accessCredentialsDiagnostics.
  rewrite Hid, Hsecret.
  destruct (nonEmpty (username data)), (nonEmpty (password data)),
    (nonEmpty (tenant data)); simpl in Hone; try discriminate Hone;
    simpl; eexists; (split; [reflexivity|]); repeat split;
    intros H; try discriminate H; reflexivity.
Qed.

End Credentials.

Lemma credentials_both_styles_exclusive_witness :
  metakubeResourceClusterValidateAccessCredentialsSet bothStylesConfig =
  Ok [ {| diag.Severity := diag.Error;
          diag.Summary := "Please use either username, password, tenant or application_credentials_id, application_credentials_secret, not both";
          diag.AttributePath :=
            [cty.GetAttrStep "spec"; cty.IndexStep 0; cty.GetAttrStep "cloud";
             cty.IndexStep 0; cty.GetAttrStep "openstack"; cty.IndexStep 0];
          diag.Detail := "" |} ].
Proof.
  apply (credentials_both_styles_exclusive bothStylesConfig
           {| dcName := Some ""; domain := Some "Default"; username := Some "";
              password := Some "secret"; tenant := Some "";
              applicationCredentialsID := Some "app-1";
              applicationCredentialsSecret := Some "";
              network := Some ""; subnetID := Some "" |}
           eq_refl eq_refl eq_refl).
Defined.

Lemma credentials_one_basic_field_names_missing_witness :
  exists detail,
    metakubeResourceClusterValidateAccessCredentialsSet usernameOnlyConfig =
    Ok [ {| diag.Severity := diag.Error;
            diag.Summary := "Please set all username, password, tenant fields or use application_credentials_id, application_credentials_secret fields";
            diag.AttributePath :=
              [cty.GetAttrStep "spec"; cty.IndexStep 0; cty.GetAttrStep "cloud";
               cty.IndexStep 0; cty.GetAttrStep "openstack"; cty.IndexStep 0];
            diag.Detail := detail |} ]
    /\ detail = "password not set, tenant not set".
Proof.
  destruct (credentials_one_basic_field_names_missing usernameOnlyConfig
              {| dcName := Some ""; domain := Some "Default"; username := Some "alice";
                 password := Some ""; tenant := Some "";
                 applicationCredentialsID := Some "";
                 applicationCredentialsSecret := Some "";
                 network := Some ""; subnetID := Some "" |}
              eq_refl eq_refl eq_refl eq_refl) as [detail [Hrule [Huser _]]].
  exists detail. split; [exact Hrule|exact (Huser eq_refl)].
Defined.

(** ** C1, C10: the subnet rule once the network resolves *)

Section SubnetOfResolvedNetwork.

Variable d : schema.ResourceData.
Variable k : metakubeProviderMeta.
Variable data : metakubeResourceClusterOpenstackValidationData.
Variables name sid : string.
Variable nets : list OpenstackNetwork.t.
Variable net : OpenstackNetwork.t.

Hypothesis Hdata : newOpenstackValidationData d = Ok data.
Hypothesis Hname : network data = Some name.
Hypothesis Hsid : subnetID data = Some sid.
Hypothesis Hnets :
  ListOpenstackNetworks k (setParams data openstack.NewListOpenstackNetworksParams)
  = Payload nets.
Hypothesis Hfound : findNetwork nets name true = Some net.

(** C1, amended. When the network name and the subnet id are set, the
    network resolves, and the call that lists its subnets fails, the subnet
    rule yields exactly one error diagnostic: its summary carries the
    message of the failure and its detail is empty. *)
Theorem subnet_listing_failure_is_reported (e : RemoteError) :
  ListOpenstackSubnets k
    (openstack.SetNetworkID (Some (OpenstackNetwork.ID net))
       (setParams data openstack.NewListOpenstackSubnetsParams)) = Failed e ->
  exists dg,
    diagnoseOpenstackSubnetWithIDExistsIfSet d k = Ok [dg]
    /\ diag.Severity dg = diag.Error
    /\ diag.Summary dg =
       "invalid value: list network subnets: " ++ stringifyResponseError e
    /\ diag.Detail dg = "".
Proof.
  intros Hsub.
  unfold diagnoseOpenstackSubnetWithIDExistsIfSet.
  rewrite Hdata. simpl. rewrite Hname, Hsid.
  unfold getNetwork. rewrite Hnets, Hfound.
  unfold getSubnet. rewrite Hsub. simpl.
  eexists. split; [reflexivity|]. simpl. repeat split.
Qed.

(** C10. When the network name and the subnet id are set, the network
    resolves as an external one, the subnets are listed, and the subnet id
    is not among them, the diagnostic of the subnet rule has the summary
    "invalid value: <nil>". *)
Theorem subnet_not_found_summary_is_nil (subnets : list OpenstackSubnet.t) :
  ListOpenstackSubnets k
    (openstack.SetNetworkID (Some (OpenstackNetwork.ID net))
       (setParams data openstack.NewListOpenstackSubnetsParams)) = Payload subnets ->
  findSubnet subnets sid = None ->
  exists dg,
    diagnoseOpenstackSubnetWithIDExistsIfSet d k = Ok [dg]
    /\ diag.Severity dg = diag.Error
    /\ diag.Summary dg = "invalid value: <nil>".
Proof.
  intros Hsub Hmiss.
  unfold diagnoseOpenstackSubnetWithIDExistsIfSet.
  rewrite Hdata. simpl. rewrite Hname, Hsid.
  unfold getNetwork. rewrite Hnets, Hfound.
  unfold getSubnet. rewrite Hsub, Hsid, Hmiss. simpl.
  eexists. split; [reflexivity|]. simpl. split; reflexivity.
Qed.

End SubnetOfResolvedNetwork.

(** The claim C1 as the specification words it fails: with ext-net resolved
    and the subnet listing refused, the rule returns a diagnostic. *)
Lemma subnet_listing_failure_not_silent :
  newOpenstackValidationData extNetConfig = Ok extNetData
  /\ network extNetData = Some "ext-net"
  /\ subnetID extNetData = Some "s9"
  /\ getNetwork subnetListingFails extNetData "ext-net" true
     = (Some extNet, [prodNet; extNet], None)
  /\ ListOpenstackSubnets subnetListingFails
       (openstack.SetNetworkID (Some "n0")
          (setParams extNetData openstack.NewListOpenstackSubnetsParams))
     = Failed connectionRefused
  /\ diagnoseOpenstackSubnetWithIDExistsIfSet extNetConfig subnetListingFails
     = Ok [ {| diag.Severity := diag.Error;
               diag.Summary := "invalid value: list network subnets: connection refused";
               diag.AttributePath :=
                 [cty.GetAttrStep "spec"; cty.IndexStep 0; cty.GetAttrStep "cloud";
                  cty.IndexStep 0; cty.GetAttrStep "openstack"; cty.IndexStep 0;
                  cty.GetAttrStep "subnetID"];
               diag.Detail := "" |} ]
  /\ diagnoseOpenstackSubnetWithIDExistsIfSet extNetConfig subnetListingFails <> Ok [].
Proof.
  repeat split; try reflexivity. discriminate.
Qed.

Lemma subnet_listing_failure_is_reported_witness :
  exists dg,
    diagnoseOpenstackSubnetWithIDExistsIfSet extNetConfig subnetListingFails = Ok [dg]
    /\ diag.Severity dg = diag.Error
    /\ diag.Summary dg = "invalid value: list network subnets: connection refused"
    /\ diag.Detail dg = "".
Proof.
  exact (subnet_listing_failure_is_reported extNetConfig subnetListingFails extNetData
           "ext-net" "s9" [prodNet; extNet] extNet
           eq_refl eq_refl eq_refl eq_refl eq_refl connectionRefused eq_refl).
Defined.

Lemma subnet_not_found_summary_is_nil_witness :
  exists dg,
    diagnoseOpenstackSubnetWithIDExistsIfSet extNetConfig extNetClient = Ok [dg]
    /\ diag.Severity dg = diag.Error
    /\ diag.Summary dg = "invalid value: <nil>".
Proof.
  exact (subnet_not_found_summary_is_nil extNetConfig extNetClient extNetData
           "ext-net" "s9" [prodNet; extNet] extNet
           eq_refl eq_refl eq_refl eq_refl eq_refl [subnetS1; subnetS2]
           eq_refl eq_refl).
Defined.

(** ** C2: the subnet rule looks the network up as an external one *)

(** Whatever the subnets are, the subnet rule is silent as soon as no
    external network bears the configured name. *)
Lemma subnet_rule_needs_external_network
  (d : schema.ResourceData) (k : metakubeProviderMeta)
  (data : metakubeResourceClusterOpenstackValidationData) (name : string) :
  newOpenstackValidationData d = Ok data ->
  network data = Some name ->
  (forall nets,
     ListOpenstackNetworks k (setParams data openstack.NewListOpenstackNetworksParams)
     = Payload nets ->
     findNetwork nets name true = None) ->
  diagnoseOpenstackSubnetWithIDExistsIfSet d k = Ok [].
Proof.
  intros Hdata Hname Hnone.
  unfold diagnoseOpenstackSubnetWithIDExistsIfSet.
  rewrite Hdata. simpl. rewrite Hname.
  destruct (subnetID data) as [sid|]; [|reflexivity].
  unfold getNetwork.
  destruct (ListOpenstackNetworks k _) as [err|nets] eqn:E; [reflexivity|].
  now rewrite (Hnone nets eq_refl).
Qed.

(** C2, on the scenario of the specification. The network prod-net is there
    and is not external, the network rule accepts it, the subnet s9 is not
    among its subnets s1 and s2; the subnet rule looks prod-net up among the
    external networks, finds none, and returns no diagnostic. *)
Theorem subnet_rule_skips_internal_network :
  findNetwork [prodNet] "prod-net" false = Some prodNet
  /\ metakubeResourceClusterValidateOpenstackNetwork prodNetConfig prodNetClient = Ok []
  /\ subnetsOn "n1" (OpenstackNetwork.ID prodNet) = Payload [subnetS1; subnetS2]
  /\ findSubnet [subnetS1; subnetS2] "s9" = None
  /\ findNetwork [prodNet] "prod-net" true = None
  /\ diagnoseOpenstackSubnetWithIDExistsIfSet prodNetConfig prodNetClient = Ok [].
Proof.
  repeat split.
Qed.

(** ** C6: the floating-IP-pool rule without external networks *)

(** C6. When the floating IP pool is set and the network list is not empty
    and holds no external network, the floating-IP-pool rule yields one
    error diagnostic on the floating_ip_pool field; its detail lists the
    pools found, and that list is empty. *)
Theorem floating_ip_pool_no_external_network
  (d : schema.ResourceData) (k : metakubeProviderMeta)
  (data : metakubeResourceClusterOpenstackValidationData)
  (pool : string) (nets : list OpenstackNetwork.t) :
  schema.GetOk d "spec.0.cloud.0.openstack.0.floating_ip_pool" = (IStr pool, true) ->
  newOpenstackValidationData d = Ok data ->
  ListOpenstackNetworks k (setParams data openstack.NewListOpenstackNetworksParams)
  = Payload nets ->
  nets <> [] ->
  (forall n, In n nets -> OpenstackNetwork.External n = false) ->
  metakubeResourceClusterValidateFloatingIPPool d k =
  Ok [ {| diag.Severity := diag.Error;
          diag.Summary := "invalid value: network `" ++ pool ++ "` not found";
          diag.AttributePath :=
            [cty.GetAttrStep "spec"; cty.IndexStep 0; cty.GetAttrStep "cloud";
             cty.IndexStep 0; cty.GetAttrStep "openstack"; cty.IndexStep 0;
             cty.GetAttrStep "floating_ip_pool"];
          diag.Detail := "We found following floating IP pools: []" |} ].
Proof.
  intros Hok Hdata Hnets Hne Hint.
  assert (Hfind : findNetwork nets pool true = None).
  { clear Hnets Hne. induction nets as [|n rest IH]; [reflexivity|]. simpl.
    rewrite (Hint n (or_introl eq_refl)). rewrite andb_false_r.
    apply IH. intros m Hm. apply Hint. now right. }
  assert (Hfilter : filter (fun n => OpenstackNetwork.External n) nets = []).
  { clear Hnets Hne Hfind. induction nets as [|n rest IH]; [reflexivity|]. simpl.
    rewrite (Hint n (or_introl eq_refl)).
    apply IH. intros m Hm. apply Hint. now right. }
  unfold metakubeResourceClusterValidateFloatingIPPool,
    validateOpenstackNetworkExistsIfSet.
  rewrite Hok. simpl. rewrite Hdata. simpl.
  unfold getNetwork. rewrite Hnets, Hfind. simpl.
  rewrite Hfilter.
  destruct nets as [|n rest]; [contradiction|]. reflexivity.
Qed.

Lemma floating_ip_pool_no_external_network_witness :
  metakubeResourceClusterValidateFloatingIPPool floatingPoolConfig prodNetClient =
  Ok [ {| diag.Severity := diag.Error;
          diag.Summary := "invalid value: network `ext-pool` not found";
          diag.AttributePath :=
            [cty.GetAttrStep "spec"; cty.IndexStep 0; cty.GetAttrStep "cloud";
             cty.IndexStep 0; cty.GetAttrStep "openstack"; cty.IndexStep 0;
             cty.GetAttrStep "floating_ip_pool"];
          diag.Detail := "We found following floating IP pools: []" |} ].
Proof.
  apply (floating_ip_pool_no_external_network floatingPoolConfig prodNetClient
           floatingPoolData "ext-pool" [prodNet] eq_refl eq_refl eq_refl).
  - discriminate.
  - intros n [<-|[]]. reflexivity.
Defined.

(** ** C4: the orchestrator *)

(** C4. Without an OpenStack block the orchestrator returns what the
    version-existence rule returns; with one it returns the diagnostics of
    the version-existence, floating-IP-pool, network-existence, credential
    and subnet-existence rules, in that order. *)
Theorem cluster_fields_rules_in_order
  (d : schema.ResourceData) (k : metakubeProviderMeta) :
  (snd (schema.GetOk d "spec.0.cloud.0.openstack.0") = false ->
   metakubeResourceClusterValidateClusterFields d k =
   metakubeResourceValidateVersionExistence d k)
  /\ (snd (schema.GetOk d "spec.0.cloud.0.openstack.0") = true ->
      metakubeResourceClusterValidateClusterFields d k =
      concatDiagnostics
        [ metakubeResourceValidateVersionExistence d k;
          metakubeResourceClusterValidateFloatingIPPool d k;
          metakubeResourceClusterValidateOpenstackNetwork d k;
          metakubeResourceClusterValidateAccessCredentialsSet d;
          diagnoseOpenstackSubnetWithIDExistsIfSet d k ]).
Proof.
  unfold metakubeResourceClusterValidateClusterFields, concatDiagnostics.
  destruct (schema.GetOk d "spec.0.cloud.0.openstack.0") as [value ok]. simpl.
  split; intros ->; simpl.
  - now destruct (metakubeResourceValidateVersionExistence d k).
  - destruct (metakubeResourceValidateVersionExistence d k) as [ver|];
      [|reflexivity]; simpl.
    destruct (metakubeResourceClusterValidateFloatingIPPool d k) as [fip|];
      [|reflexivity]; simpl.
    destruct (metakubeResourceClusterValidateOpenstackNetwork d k) as [net|];
      [|reflexivity]; simpl.
    destruct (metakubeResourceClusterValidateAccessCredentialsSet d) as [cred|];
      [|reflexivity]; simpl.
    destruct (diagnoseOpenstackSubnetWithIDExistsIfSet d k) as [sub|];
      [|reflexivity]; simpl.
    rewrite app_nil_r, <- !app_assoc. reflexivity.
Qed.

Lemma cluster_fields_rules_in_order_witness :
  metakubeResourceClusterValidateClusterFields noOpenstackConfig prodNetClient =
  metakubeResourceValidateVersionExistence noOpenstackConfig prodNetClient
  /\ metakubeResourceClusterValidateClusterFields floatingPoolConfig prodNetClient =
     concatDiagnostics
       [ metakubeResourceValidateVersionExistence floatingPoolConfig prodNetClient;
         metakubeResourceClusterValidateFloatingIPPool floatingPoolConfig prodNetClient;
         metakubeResourceClusterValidateOpenstackNetwork floatingPoolConfig prodNetClient;
         metakubeResourceClusterValidateAccessCredentialsSet floatingPoolConfig;
         diagnoseOpenstackSubnetWithIDExistsIfSet floatingPoolConfig prodNetClient ].
Proof.
  split.
  - exact (proj1 (cluster_fields_rules_in_order noOpenstackConfig prodNetClient) eq_refl).
  - exact (proj2 (cluster_fields_rules_in_order floatingPoolConfig prodNetClient) eq_refl).
Defined.

(** ** C9: at most one diagnostic per rule *)

Ltac one_or_none :=
  let ds := fresh "ds" in
  let Hret := fresh "Hret" in
  intros ds Hret; inversion Hret; subst; simpl; lia.

Lemma version_existence_atMostOne (d : schema.ResourceData) (k : metakubeProviderMeta) :
  atMostOne (metakubeResourceValidateVersionExistence d k).
Proof.
  unfold metakubeResourceValidateVersionExistence.
  destruct (assertString (schema.Get d "spec.0.version")) as [version|]; simpl;
    [|one_or_none].
  destruct (GetMasterVersions k) as [err|payload]; [one_or_none|].
  destruct (scanVersions payload version []) as [[available|]|]; simpl; one_or_none.
Qed.

Lemma version_upgrade_atMostOne (projectID newVersion : string) (cluster : Cluster.t)
  (k : metakubeProviderMeta) :
  atMostOne (metakubeResourceClusterValidateVersionUpgrade projectID newVersion cluster k).
Proof.
  unfold metakubeResourceClusterValidateVersionUpgrade.
  destruct (GetClusterUpgradesV2 k projectID (Cluster.ID cluster)) as [err|payload];
    [one_or_none|].
  destruct (scanVersions payload newVersion []) as [[available|]|]; simpl; one_or_none.
Qed.

Lemma floating_ip_pool_atMostOne (d : schema.ResourceData) (k : metakubeProviderMeta) :
  atMostOne (metakubeResourceClusterValidateFloatingIPPool d k).
Proof.
  unfold metakubeResourceClusterValidateFloatingIPPool.
  destruct (validateOpenstackNetworkExistsIfSet d k _ true) as [[nets [msg|]]|];
    simpl; one_or_none.
Qed.

Lemma openstack_network_atMostOne (d : schema.ResourceData) (k : metakubeProviderMeta) :
  atMostOne (metakubeResourceClusterValidateOpenstackNetwork d k).
Proof.
  unfold metakubeResourceClusterValidateOpenstackNetwork.
  destruct (validateOpenstackNetworkExistsIfSet d k _ false) as [[nets [msg|]]|];
    simpl; one_or_none.
Qed.

Lemma accessCredentialsDiagnostics_atMostOne
  (data : metakubeResourceClusterOpenstackValidationData) :
  (length (accessCredentialsDiagnostics data) <= 1)%nat.
Proof.
  unfold accessCredentialsDiagnostics.
  destruct (nonEmpty (username data)), (nonEmpty (password data)),
    (nonEmpty (tenant data)), (nonEmpty (applicationCredentialsID data)),
    (nonEmpty (applicationCredentialsSecret data)); simpl; lia.
Qed.

Lemma access_credentials_atMostOne (d : schema.ResourceData) :
  atMostOne (metakubeResourceClusterValidateAccessCredentialsSet d).
Proof.
  unfold metakubeResourceClusterValidateAccessCredentialsSet.
  destruct (newOpenstackValidationData d) as [data|]; simpl; intros ds Hret;
    inversion Hret; subst. apply accessCredentialsDiagnostics_atMostOne.
Qed.

Lemma subnet_atMostOne (d : schema.ResourceData) (k : metakubeProviderMeta) :
  atMostOne (diagnoseOpenstackSubnetWithIDExistsIfSet d k).
Proof.
  unfold diagnoseOpenstackSubnetWithIDExistsIfSet.
  destruct (newOpenstackValidationData d) as [data|]; simpl; [|one_or_none].
  destruct (network data) as [name|]; [|one_or_none].
  destruct (subnetID data) as [sid|]; [|one_or_none].
  destruct (getNetwork k data name true) as [[nw all] [msg|]]; [one_or_none|].
  destruct nw as [nw|]; [|one_or_none].
  destruct (getSubnet k data (OpenstackNetwork.ID nw)) as [[[subnets ok] err]|];
    simpl; [|one_or_none].
  destruct ok; one_or_none.
Qed.

Lemma toStrPtrOrNil_returns (v : iface) :
  stringOrNil v = true -> returns (toStrPtrOrNil v).
Proof.
  destruct v; simpl; intros H; try discriminate H; now eexists.
Qed.

Lemma assertString_returns (v : iface) :
  isString v = true -> returns (assertString v).
Proof.
  destruct v; simpl; intros H; try discriminate H; now eexists.
Qed.

Lemma newOpenstackValidationData_returns (d : schema.ResourceData) :
  Forall (fun key => stringOrNil (schema.Get d key) = true) openstackStringKeys ->
  returns (newOpenstackValidationData d).
Proof.
  unfold openstackStringKeys. intros H.
  repeat (apply Forall_cons_iff in H; destruct H as [? H]).
  unfold newOpenstackValidationData.
  repeat match goal with
         | Hk : stringOrNil (schema.Get d ?key) = true |- _ =>
             destruct (toStrPtrOrNil_returns _ Hk) as [? ->]; clear Hk; simpl
         end.
  now eexists.
Qed.

Lemma getNetwork_resolved (k : metakubeProviderMeta)
  (data : metakubeResourceClusterOpenstackValidationData) (name : string) (external : bool)
  (nw : option OpenstackNetwork.t) (all : list OpenstackNetwork.t) :
  getNetwork k data name external = (nw, all, None) -> nw <> None.
Proof.
  unfold getNetwork.
  destruct (ListOpenstackNetworks k _) as [err|payload]; [discriminate|].
  destruct (findNetwork payload name external); intros H; inversion H; discriminate.
Qed.

Lemma validateOpenstackNetworkExistsIfSet_returns
  (d : schema.ResourceData) (k : metakubeProviderMeta) (field : string) (external : bool) :
  returns (newOpenstackValidationData d) ->
  (snd (schema.GetOk d field) = true -> isString (fst (schema.GetOk d field)) = true) ->
  returns (validateOpenstackNetworkExistsIfSet d k field external).
Proof.
  intros [data Hdata] Hfield.
  unfold validateOpenstackNetworkExistsIfSet.
  destruct (schema.GetOk d field) as [value ok]. simpl in Hfield.
  destruct ok; simpl; [|now eexists].
  rewrite Hdata. simpl.
  destruct (assertString_returns value (Hfield eq_refl)) as [name ->]. simpl.
  destruct (getNetwork k data name external) as [[nw all] err]. now eexists.
Qed.

Lemma version_existence_returns (d : schema.ResourceData) (k : metakubeProviderMeta) :
  stringTypedConfig d -> stringTypedClient k ->
  returns (metakubeResourceValidateVersionExistence d k).
Proof.
  intros [Hversion _] [Hmaster _].
  unfold metakubeResourceValidateVersionExistence.
  destruct (assertString_returns _ Hversion) as [version ->]. simpl.
  destruct (GetMasterVersions k) as [err|payload]; [now eexists|].
  destruct (scanVersions_some_or_none payload version (Hmaster payload eq_refl) [])
    as [[available|] ->]; simpl; now eexists.
Qed.

Lemma version_upgrade_returns (projectID newVersion : string) (cluster : Cluster.t)
  (k : metakubeProviderMeta) :
  stringTypedClient k ->
  returns (metakubeResourceClusterValidateVersionUpgrade projectID newVersion cluster k).
Proof.
  intros [_ Hupgrades].
  unfold metakubeResourceClusterValidateVersionUpgrade.
  destruct (GetClusterUpgradesV2 k projectID (Cluster.ID cluster)) as [err|payload] eqn:E;
    [now eexists|].
  destruct (scanVersions_some_or_none payload newVersion (Hupgrades _ _ _ E) [])
    as [[available|] ->]; simpl; now eexists.
Qed.

Lemma floating_ip_pool_returns (d : schema.ResourceData) (k : metakubeProviderMeta) :
  stringTypedConfig d -> returns (metakubeResourceClusterValidateFloatingIPPool d k).
Proof.
  intros [_ [Hkeys Hfields]].
  apply Forall_cons_iff in Hfields. destruct Hfields as [Hpool _].
  unfold metakubeResourceClusterValidateFloatingIPPool.
  destruct (validateOpenstackNetworkExistsIfSet_returns d k _ true
              (newOpenstackValidationData_returns d Hkeys) Hpool) as [[nets err] ->].
  simpl. destruct err; now eexists.
Qed.

Lemma openstack_network_returns (d : schema.ResourceData) (k : metakubeProviderMeta) :
  stringTypedConfig d -> returns (metakubeResourceClusterValidateOpenstackNetwork d k).
Proof.
  intros [_ [Hkeys Hfields]].
  apply Forall_cons_iff in Hfields. destruct Hfields as [_ Hfields].
  apply Forall_cons_iff in Hfields. destruct Hfields as [Hnet _].
  unfold metakubeResourceClusterValidateOpenstackNetwork.
  destruct (validateOpenstackNetworkExistsIfSet_returns d k _ false
              (newOpenstackValidationData_returns d Hkeys) Hnet) as [[nets err] ->].
  simpl. destruct err; now eexists.
Qed.

Lemma access_credentials_returns (d : schema.ResourceData) :
  stringTypedConfig d -> returns (metakubeResourceClusterValidateAccessCredentialsSet d).
Proof.
  intros [_ [Hkeys _]].
  unfold metakubeResourceClusterValidateAccessCredentialsSet.
  destruct (newOpenstackValidationData_returns d Hkeys) as [data ->]. now eexists.
Qed.

Lemma subnet_returns (d : schema.ResourceData) (k : metakubeProviderMeta) :
  stringTypedConfig d -> returns (diagnoseOpenstackSubnetWithIDExistsIfSet d k).
Proof.
  intros [_ [Hkeys _]].
  unfold diagnoseOpenstackSubnetWithIDExistsIfSet.
  destruct (newOpenstackValidationData_returns d Hkeys) as [data ->]. simpl.
  destruct (network data) as [name|]; [|now eexists].
  destruct (subnetID data) as [sid|] eqn:Hsid; [|now eexists].
  destruct (getNetwork k data name true) as [[nw all] [msg|]] eqn:Hnet; [now eexists|].
  destruct nw as [nw|]; [|now destruct (getNetwork_resolved _ _ _ _ _ _ Hnet)].
  unfold getSubnet. rewrite Hsid.
  destruct (ListOpenstackSubnets k _) as [err|payload]; simpl; [now eexists|].
  destruct (findSubnet payload sid); now eexists.
Qed.

Lemma masterVersions_strings (vs : list string) : stringVersions (masterVersions vs).
Proof.
  induction vs as [|v vs IH]; constructor; [reflexivity|exact IH].
Qed.

Lemma resourceData_stringTyped (fields : list (string * string)) (openstackBlock : bool) :
  stringTypedConfig (resourceData fields openstackBlock).
Proof.
  repeat split; repeat constructor.
Qed.

Lemma clientOf_stringTyped (vs us : list string)
  (networks : Response (list OpenstackNetwork.t))
  (subnets : string -> Response (list OpenstackSubnet.t)) :
  stringTypedClient
    (clientOf (Payload (masterVersions vs)) (Payload (masterVersions us)) networks subnets).
Proof.
  split; simpl.
  - intros payload H. inversion H. apply masterVersions_strings.
  - intros _ _ payload H. inversion H. apply masterVersions_strings.
Defined.

(** C9. Each of the six rules, whenever it returns, returns at most one
    diagnostic; and on a configuration whose string fields hold strings,
    with a client whose version lists hold strings, each of them returns. *)
Theorem every_rule_at_most_one_diagnostic
  (d : schema.ResourceData) (k : metakubeProviderMeta)
  (projectID newVersion : string) (cluster : Cluster.t) :
  (atMostOne (metakubeResourceValidateVersionExistence d k)
   /\ atMostOne (metakubeResourceClusterValidateVersionUpgrade projectID newVersion cluster k)
   /\ atMostOne (metakubeResourceClusterValidateFloatingIPPool d k)
   /\ atMostOne (metakubeResourceClusterValidateOpenstackNetwork d k)
   /\ atMostOne (metakubeResourceClusterValidateAccessCredentialsSet d)
   /\ atMostOne (diagnoseOpenstackSubnetWithIDExistsIfSet d k))
  /\ (stringTypedConfig d -> stringTypedClient k ->
      returns (metakubeResourceValidateVersionExistence d k)
      /\ returns (metakubeResourceClusterValidateVersionUpgrade projectID newVersion cluster k)
      /\ returns (metakubeResourceClusterValidateFloatingIPPool d k)
      /\ returns (metakubeResourceClusterValidateOpenstackNetwork d k)
      /\ returns (metakubeResourceClusterValidateAccessCredentialsSet d)
      /\ returns (diagnoseOpenstackSubnetWithIDExistsIfSet d k)).
Proof.
  split.
  - repeat split.
    + apply version_existence_atMostOne.
    + apply version_upgrade_atMostOne.
    + apply floating_ip_pool_atMostOne.
    + apply openstack_network_atMostOne.
    + apply access_credentials_atMostOne.
    + apply subnet_atMostOne.
  - intros Hd Hk. repeat split.
    + now apply version_existence_returns.
    + now apply version_upgrade_returns.
    + now apply floating_ip_pool_returns.
    + now apply openstack_network_returns.
    + now apply access_credentials_returns.
    + now apply subnet_returns.
Qed.

Lemma every_rule_at_most_one_diagnostic_witness :
  (exists ds, metakubeResourceValidateVersionExistence extNetConfig upgradeClient = Ok ds
              /\ (length ds <= 1)%nat)
  /\ (exists ds, metakubeResourceClusterValidateVersionUpgrade "p1" "1.27.0" oldCluster
                   upgradeClient = Ok ds
                 /\ (length ds <= 1)%nat)
  /\ (exists ds, metakubeResourceClusterValidateFloatingIPPool extNetConfig upgradeClient
                 = Ok ds
                 /\ (length ds <= 1)%nat)
  /\ (exists ds, metakubeResourceClusterValidateOpenstackNetwork extNetConfig upgradeClient
                 = Ok ds
                 /\ (length ds <= 1)%nat)
  /\ (exists ds, metakubeResourceClusterValidateAccessCredentialsSet extNetConfig = Ok ds
                 /\ (length ds <= 1)%nat)
  /\ (exists ds, diagnoseOpenstackSubnetWithIDExistsIfSet extNetConfig upgradeClient = Ok ds
                 /\ (length ds <= 1)%nat).
Proof.
  destruct (every_rule_at_most_one_diagnostic extNetConfig upgradeClient
              "p1" "1.27.0" oldCluster)
    as [[Hv [Hu [Hf [Hn [Hc Hs]]]]] Hreturns].
  destruct (Hreturns (resourceData_stringTyped _ _) (clientOf_stringTyped _ _ _ _))
    as [[dv Rv] [[du Ru] [[df Rf] [[dn Rn] [[dc Rc] [dsub Rs]]]]]].
  repeat split.
  - exists dv. split; [exact Rv|exact (Hv dv Rv)].
  - exists du. split; [exact Ru|exact (Hu du Ru)].
  - exists df. split; [exact Rf|exact (Hf df Rf)].
  - exists dn. split; [exact Rn|exact (Hn dn Rn)].
  - exists dc. split; [exact Rc|exact (Hc dc Rc)].
  - exists dsub. split; [exact Rs|exact (Hs dsub Rs)].
Defined.

(** ** C3: where the diagnostics point *)

Ltac resolve_paths :=
  let ds := fresh "ds" in
  let dg := fresh "dg" in
  let Hret := fresh "Hret" in
  let Hin := fresh "Hin" in
  intros ds dg Hret Hin; inversion Hret; subst;
  simpl in Hin; repeat (destruct Hin as [Hin|Hin]; [subst; reflexivity|]);
  contradiction.

Lemma accessCredentialsDiagnostics_path
  (data : metakubeResourceClusterOpenstackValidationData) (dg : diag.Diagnostic) :
  In dg (accessCredentialsDiagnostics data) -> diag.AttributePath dg = openstackPath.
Proof.
  unfold accessCredentialsDiagnostics.
  destruct (nonEmpty (username data)), (nonEmpty (password data)),
    (nonEmpty (tenant data)), (nonEmpty (applicationCredentialsID data)),
    (nonEmpty (applicationCredentialsSecret data)); simpl;
    intros Hin; repeat (destruct Hin as [Hin|Hin]; [subst; reflexivity|]);
    contradiction.
Qed.

(** C3, amended. Every diagnostic of the floating-IP-pool, network and
    credential rules, and of the two version rules when the remote call
    succeeds, carries an attribute path that resolves to a field of the
    resource; the diagnostic of a version rule whose remote call fails
    carries no attribute path. *)
Theorem diagnostic_paths_resolve
  (d : schema.ResourceData) (k : metakubeProviderMeta)
  (projectID newVersion : string) (cluster : Cluster.t) :
  pathsResolve (metakubeResourceClusterValidateFloatingIPPool d k)
  /\ pathsResolve (metakubeResourceClusterValidateOpenstackNetwork d k)
  /\ pathsResolve (metakubeResourceClusterValidateAccessCredentialsSet d)
  /\ (forall payload, GetMasterVersions k = Payload payload ->
        pathsResolve (metakubeResourceValidateVersionExistence d k))
  /\ (forall payload,
        GetClusterUpgradesV2 k projectID (Cluster.ID cluster) = Payload payload ->
        pathsResolve
          (metakubeResourceClusterValidateVersionUpgrade projectID newVersion cluster k))
  /\ (forall e ds dg, GetMasterVersions k = Failed e ->
        metakubeResourceValidateVersionExistence d k = Ok ds -> In dg ds ->
        diag.AttributePath dg = [])
  /\ (forall e ds dg,
        GetClusterUpgradesV2 k projectID (Cluster.ID cluster) = Failed e ->
        metakubeResourceClusterValidateVersionUpgrade projectID newVersion cluster k = Ok ds ->
        In dg ds ->
        diag.AttributePath dg = []).
Proof.
  repeat split.
  - unfold metakubeResourceClusterValidateFloatingIPPool.
    destruct (validateOpenstackNetworkExistsIfSet d k _ true) as [[nets [msg|]]|];
      simpl; resolve_paths.
  - unfold metakubeResourceClusterValidateOpenstackNetwork.
    destruct (validateOpenstackNetworkExistsIfSet d k _ false) as [[nets [msg|]]|];
      simpl; resolve_paths.
  - unfold metakubeResourceClusterValidateAccessCredentialsSet.
    destruct (newOpenstackValidationData d) as [data|]; simpl;
      intros ds dg Hret Hin; inversion Hret; subst.
    now rewrite (accessCredentialsDiagnostics_path data dg Hin).
  - intros payload Hremote. unfold metakubeResourceValidateVersionExistence.
    rewrite Hremote.
    destruct (assertString (schema.Get d "spec.0.version")) as [version|]; simpl;
      [|resolve_paths].
    destruct (scanVersions payload version []) as [[available|]|]; simpl; resolve_paths.
  - intros payload Hremote. unfold metakubeResourceClusterValidateVersionUpgrade.
    rewrite Hremote.
    destruct (scanVersions payload newVersion []) as [[available|]|]; simpl; resolve_paths.
  - intros e ds dg Hremote. unfold metakubeResourceValidateVersionExistence.
    rewrite Hremote.
    destruct (assertString (schema.Get d "spec.0.version")) as [version|]; simpl;
      intros Hret Hin; inversion Hret; subst.
    destruct Hin as [<-|[]]. reflexivity.
  - intros e ds dg Hremote. unfold metakubeResourceClusterValidateVersionUpgrade.
    rewrite Hremote. intros Hret Hin; inversion Hret; subst.
    destruct Hin as [<-|[]]. reflexivity.
Qed.

Lemma diagnostic_paths_resolve_witness :
  resolvesToField
    [cty.GetAttrStep "spec"; cty.IndexStep 0; cty.GetAttrStep "cloud";
     cty.IndexStep 0; cty.GetAttrStep "openstack"; cty.IndexStep 0;
     cty.GetAttrStep "floating_ip_pool"] = true
  /\ resolvesToField
       [cty.GetAttrStep "spec"; cty.IndexStep 0; cty.GetAttrStep "version"] = true.
Proof.
  destruct (diagnostic_paths_resolve floatingPoolConfig prodNetClient
              "p1" "1.27.0" oldCluster) as [Hpool _].
  destruct (diagnostic_paths_resolve noOpenstackConfig prodNetClient
              "p1" "1.27.0" oldCluster) as [_ [_ [_ [Hversion _]]]].
  split.
  - exact (Hpool _ _ eq_refl (or_introl eq_refl)).
  - exact (Hversion _ eq_refl _ _ eq_refl (or_introl eq_refl)).
Defined.

(** The claim C3 as the specification words it fails twice: the diagnostic
    of the version rule for a failed remote call has the empty path, and the
    diagnostic of the subnet rule points at subnetID, while the subnet id is
    the field subnet_id. *)
Lemma diagnostic_paths_unresolved :
  (metakubeResourceValidateVersionExistence noOpenstackConfig versionsFail
   = Ok [ {| diag.Severity := diag.Error; diag.Summary := "connection refused";
             diag.AttributePath := []; diag.Detail := "" |} ]
   /\ resolvesToField [] = false
   /\ ~ pathsResolve (metakubeResourceValidateVersionExistence noOpenstackConfig versionsFail))
  /\ (exists dg,
        diagnoseOpenstackSubnetWithIDExistsIfSet extNetConfig extNetClient = Ok [dg]
        /\ pathKey (diag.AttributePath dg) = "spec.0.cloud.0.openstack.0.subnetID"
        /\ pathKey (diag.AttributePath dg) <> "spec.0.cloud.0.openstack.0.subnet_id"
        /\ lookupField
             [ ("spec.0.version", "1.26.0");
               ("spec.0.cloud.0.openstack.0.network", "ext-net");
               ("spec.0.cloud.0.openstack.0.subnet_id", "s9") ]
             "spec.0.cloud.0.openstack.0.subnet_id" = "s9"
        /\ resolvesToField (diag.AttributePath dg) = false)
  /\ ~ pathsResolve (diagnoseOpenstackSubnetWithIDExistsIfSet extNetConfig extNetClient).
Proof.
  split; [|split].
  - repeat split. intros H.
    specialize (H _ _ eq_refl (or_introl eq_refl)). discriminate H.
  - eexists. split; [reflexivity|]. repeat split. discriminate.
  - intros H. specialize (H _ _ eq_refl (or_introl eq_refl)). discriminate H.
Qed.

(** ** The lookup helpers *)

Lemma findNetwork_sound
  (list : list OpenstackNetwork.t) (network : string) (external : bool)
  (item : OpenstackNetwork.t) :
  findNetwork list network external = Some item ->
  In item list
  /\ OpenstackNetwork.Name item = network
  /\ OpenstackNetwork.External item = external.
Proof.
  induction list as [|head rest IH]; simpl; [discriminate|].
  destruct (String.eqb (OpenstackNetwork.Name head) network
            && Bool.eqb (OpenstackNetwork.External head) external) eqn:E.
  - intros H. inversion H. subst head.
    apply andb_true_iff in E. destruct E as [En Ee].
    apply String.eqb_eq in En. apply Bool.eqb_prop in Ee.
    repeat split; [now left|assumption|assumption].
  - intros H. destruct (IH H) as [Hin [Hn He]]. repeat split; [now right| |]; assumption.
Qed.

Lemma findSubnet_listed (list : list OpenstackSubnet.t) (id : string) :
  (exists item, findSubnet list id = Some item) <-> In id (map OpenstackSubnet.ID list).
Proof.
  induction list as [|head rest IH]; simpl.
  - split; [intros [item H]; discriminate H|intros []].
  - destruct (String.eqb (OpenstackSubnet.ID head) id) eqn:E.
    + apply String.eqb_eq in E. split; [now left|now exists head].
    + apply String.eqb_neq in E. rewrite IH. split; [now right|].
      intros [H|H]; [contradiction|assumption].
Qed.

(** [findNetwork] returns the first item of the list with the name and the
    external flag asked for. *)
Theorem findNetwork_first_match
  (list : list OpenstackNetwork.t) (network : string) (external : bool)
  (item : OpenstackNetwork.t) :
  findNetwork list network external = Some item ->
  exists before after,
    list = (before ++ item :: after)%list
    /\ OpenstackNetwork.Name item = network
    /\ OpenstackNetwork.External item = external
    /\ forall other, In other before ->
         ~ (OpenstackNetwork.Name other = network
            /\ OpenstackNetwork.External other = external).
Proof.
  induction list as [|head rest IH]; simpl; [discriminate|].
  destruct (String.eqb (OpenstackNetwork.Name head) network
            && Bool.eqb (OpenstackNetwork.External head) external) eqn:E.
  - intros H. inversion H. subst head.
    apply andb_true_iff in E. destruct E as [En Ee].
    apply String.eqb_eq in En. apply Bool.eqb_prop in Ee.
    exists [], rest. repeat split; try assumption. intros other [].
  - intros H. destruct (IH H) as [before [after [Hl [Hn [He Hb]]]]].
    exists (head :: before), after. rewrite Hl. repeat split; try assumption.
    intros other [<-|Hin]; [|now apply Hb].
    intros [Hn' He']. rewrite Hn', He', String.eqb_refl, Bool.eqb_reflx in E.
    discriminate E.
Qed.

Lemma findNetwork_first_match_witness :
  exists before after,
    [prodNet; extNet] = (before ++ extNet :: after)%list
    /\ OpenstackNetwork.Name extNet = "ext-net"
    /\ OpenstackNetwork.External extNet = true
    /\ forall other, In other before ->
         ~ (OpenstackNetwork.Name other = "ext-net"
            /\ OpenstackNetwork.External other = true).
Proof.
  exact (findNetwork_first_match [prodNet; extNet] "ext-net" true extNet eq_refl).
Defined.

(** [findNetwork] returns nil exactly when no item of the list has both the
    name and the external flag asked for. *)
Theorem findNetwork_none_iff
  (list : list OpenstackNetwork.t) (network : string) (external : bool) :
  findNetwork list network external = None <->
  forall item, In item list ->
    ~ (OpenstackNetwork.Name item = network
       /\ OpenstackNetwork.External item = external).
Proof.
  induction list as [|head rest IH]; simpl.
  - split; [intros _ item []|reflexivity].
  - destruct (String.eqb (OpenstackNetwork.Name head) network
              && Bool.eqb (OpenstackNetwork.External head) external) eqn:E.
    + apply andb_true_iff in E. destruct E as [En Ee].
      apply String.eqb_eq in En. apply Bool.eqb_prop in Ee.
      split; [discriminate|]. intros H. destruct (H head (or_introl eq_refl)).
      now split.
    + rewrite IH. split.
      * intros H item [<-|Hin]; [|now apply H].
        intros [Hn He]. rewrite Hn, He, String.eqb_refl, Bool.eqb_reflx in E.
        discriminate E.
      * intros H item Hin. apply H. now right.
Qed.

Lemma findNetwork_none_iff_witness :
  findNetwork [prodNet] "prod-net" true = None.
Proof.
  apply (proj2 (findNetwork_none_iff [prodNet] "prod-net" true)).
  intros item [<-|[]] [_ He]. discriminate He.
Defined.

(** [findSubnet] returns the first subnet of the list with the id asked for,
    and nil exactly when no subnet of the list has that id. *)
Theorem findSubnet_first_match
  (list : list OpenstackSubnet.t) (id : string) :
  (forall item, findSubnet list id = Some item ->
     exists before after,
       list = (before ++ item :: after)%list
       /\ OpenstackSubnet.ID item = id
       /\ ~ In id (map OpenstackSubnet.ID before))
  /\ (findSubnet list id = None <-> ~ In id (map OpenstackSubnet.ID list)).
Proof.
  induction list as [|head rest [IHsome IHnone]]; simpl.
  - split; [discriminate|]. split; [intros _ []|reflexivity].
  - destruct (String.eqb (OpenstackSubnet.ID head) id) eqn:E.
    + apply String.eqb_eq in E. split.
      * intros item H. inversion H. subst head.
        exists [], rest. repeat split; [assumption|intros []].
      * split; [discriminate|]. intros H. destruct H. now left.
    + apply String.eqb_neq in E. split.
      * intros item H. destruct (IHsome item H) as [before [after [Hl [Hid Hb]]]].
        exists (head :: before), after. rewrite Hl. repeat split; [assumption|].
        intros [Hh|Hin]; [now apply E|now apply Hb].
      * rewrite IHnone. split.
        -- intros H [Hh|Hin]; [now apply E|now apply H].
        -- intros H Hin. apply H. now right.
Qed.

Lemma findSubnet_first_match_witness :
  (exists before after,
     [subnetS1; subnetS2] = (before ++ subnetS2 :: after)%list
     /\ OpenstackSubnet.ID subnetS2 = "s2"
     /\ ~ In "s2" (map OpenstackSubnet.ID before))
  /\ findSubnet [subnetS1; subnetS2] "s9" = None.
Proof.
  destruct (findSubnet_first_match [subnetS1; subnetS2] "s2") as [Hsome _].
  destruct (findSubnet_first_match [subnetS1; subnetS2] "s9") as [_ Hnone].
  split.
  - exact (Hsome subnetS2 eq_refl).
  - apply (proj2 Hnone). intros [H|[H|[]]]; discriminate H.
Defined.

(** [getNetwork] returns either a network and no error, or no network and an
    error: the network is then one of the listed networks with the name and
    the flag asked for; the error tells a failed call, with no list, from a
    name that is not found, with the whole list. *)
Theorem getNetwork_network_xor_error
  (k : metakubeProviderMeta) (data : metakubeResourceClusterOpenstackValidationData)
  (name : string) (external : bool) :
  match getNetwork k data name external with
  | (Some item, all, None) =>
      ListOpenstackNetworks k (setParams data openstack.NewListOpenstackNetworksParams)
      = Payload all
      /\ In item all
      /\ OpenstackNetwork.Name item = name
      /\ OpenstackNetwork.External item = external
  | (None, all, Some msg) =>
      (exists err,
         ListOpenstackNetworks k (setParams data openstack.NewListOpenstackNetworksParams)
         = Failed err
         /\ all = []
         /\ msg = "find network instance " ++ stringifyResponseError err)
      \/ (ListOpenstackNetworks k (setParams data openstack.NewListOpenstackNetworksParams)
          = Payload all
          /\ findNetwork all name external = None
          /\ msg = "network `" ++ name ++ "` not found")
  | _ => False
  end.
Proof.
  unfold getNetwork.
  destruct (ListOpenstackNetworks k _) as [err|payload] eqn:Hcall.
  - left. exists err. repeat split.
  - destruct (findNetwork payload name external) as [item|] eqn:Hfind.
    + destruct (findNetwork_sound _ _ _ _ Hfind) as [Hin [Hn He]].
      split; [reflexivity|]. split; [exact Hin|now split].
    + right. split; [reflexivity|]. split; [exact Hfind|reflexivity].
Qed.

(** [getSubnet], for a set subnet id: after a failed call it returns no
    subnets, not found, and an error with the message of the failure; after a
    successful one it returns the listed subnets, no error, and found exactly
    when a listed subnet has the configured id. *)
Theorem getSubnet_found_iff_listed
  (k : metakubeProviderMeta) (data : metakubeResourceClusterOpenstackValidationData)
  (networkID id : string) :
  subnetID data = Some id ->
  match ListOpenstackSubnets k
          (openstack.SetNetworkID (Some networkID)
             (setParams data openstack.NewListOpenstackSubnetsParams)) with
  | Failed err =>
      getSubnet k data networkID =
      Ok ([], false, Some ("list network subnets: " ++ stringifyResponseError err))
  | Payload payload =>
      exists found,
        getSubnet k data networkID = Ok (payload, found, None)
        /\ (found = true <-> In id (map OpenstackSubnet.ID payload))
  end.
Proof.
  intros Hid. unfold getSubnet.
  destruct (ListOpenstackSubnets k _) as [err|payload]; [reflexivity|].
  rewrite Hid.
  destruct (findSubnet payload id) as [item|] eqn:Hfind.
  - exists true. split; [reflexivity|]. split; [|reflexivity]. intros _.
    apply findSubnet_listed. now exists item.
  - exists false. split; [reflexivity|]. split; [discriminate|].
    intros Hin. apply findSubnet_listed in Hin. destruct Hin as [item Hitem].
    rewrite Hfind in Hitem. discriminate Hitem.
Qed.

Lemma getSubnet_found_iff_listed_witness :
  exists found,
    getSubnet extNetClient (snapshotOf extNetS1Fields) "n0"
    = Ok ([subnetS1; subnetS2], found, None)
    /\ (found = true <-> In "s1" (map OpenstackSubnet.ID [subnetS1; subnetS2])).
Proof.
  exact (getSubnet_found_iff_listed extNetClient (snapshotOf extNetS1Fields)
           "n0" "s1" eq_refl).
Defined.

(** ** The version rules *)

(** The upgrade rule: when the upgrade call returns the versions [vs], an
    upgrade to one of them yields no diagnostic, and an upgrade to any other
    version yields exactly one error diagnostic on the version field, whose
    summary names the old and the new version and whose detail lists all of
    [vs]. *)
Theorem version_upgrade_allowed_or_not
  (projectID newVersion : string) (cluster : Cluster.t) (k : metakubeProviderMeta)
  (vs : list string) :
  GetClusterUpgradesV2 k projectID (Cluster.ID cluster) = Payload (masterVersions vs) ->
  (In newVersion vs ->
   metakubeResourceClusterValidateVersionUpgrade projectID newVersion cluster k = Ok [])
  /\ (~ In newVersion vs ->
      metakubeResourceClusterValidateVersionUpgrade projectID newVersion cluster k =
      Ok [ {| diag.Severity := diag.Error;
              diag.Summary := "not allowed upgrade "
                ++ fmt.s_iface (Cluster.SpecVersion cluster) ++ "->" ++ newVersion;
              diag.AttributePath :=
                [cty.GetAttrStep "spec"; cty.IndexStep 0; cty.GetAttrStep "version"];
              diag.Detail := "Please select one of available upgrades: ["
                             ++ String.concat " " vs ++ "]" |} ]).
Proof.
  intros Hremote.
  unfold metakubeResourceClusterValidateVersionUpgrade.
  rewrite Hremote, scanVersions_strings.
  split; intros Hin.
  - apply existsb_eqb_In in Hin. now rewrite Hin.
  - destruct (existsb _ vs) eqn:E; [|reflexivity].
    apply existsb_eqb_In in E. contradiction.
Qed.

Lemma version_upgrade_allowed_or_not_witness :
  metakubeResourceClusterValidateVersionUpgrade "p1" "1.26.0" oldCluster upgradeClient
  = Ok []
  /\ metakubeResourceClusterValidateVersionUpgrade "p1" "1.27.0" oldCluster upgradeClient
     = Ok [ {| diag.Severity := diag.Error;
               diag.Summary := "not allowed upgrade 1.25.0->1.27.0";
               diag.AttributePath :=
                 [cty.GetAttrStep "spec"; cty.IndexStep 0; cty.GetAttrStep "version"];
               diag.Detail := "Please select one of available upgrades: [1.26.0]" |} ].
Proof.
  split.
  - apply (proj1 (version_upgrade_allowed_or_not "p1" "1.26.0" oldCluster upgradeClient
                    ["1.26.0"] eq_refl)).
    now left.
  - apply (proj2 (version_upgrade_allowed_or_not "p1" "1.27.0" oldCluster upgradeClient
                    ["1.26.0"] eq_refl)).
    intros [H|[]]. discriminate H.
Defined.

(** A failed remote call of a version rule yields exactly one error
    diagnostic with no detail and no attribute path: the existence rule
    reports the text [stringifyResponseError] makes of the error, the upgrade
    rule the text of the error itself. *)
Theorem version_rules_report_failed_call
  (d : schema.ResourceData) (k : metakubeProviderMeta)
  (projectID newVersion : string) (cluster : Cluster.t) (err : RemoteError) :
  (isString (schema.Get d "spec.0.version") = true ->
   GetMasterVersions k = Failed err ->
   metakubeResourceValidateVersionExistence d k =
   Ok [ {| diag.Severity := diag.Error;
           diag.Summary := stringifyResponseError err;
           diag.AttributePath := [];
           diag.Detail := "" |} ])
  /\ (GetClusterUpgradesV2 k projectID (Cluster.ID cluster) = Failed err ->
      metakubeResourceClusterValidateVersionUpgrade projectID newVersion cluster k =
      Ok [ {| diag.Severity := diag.Error;
              diag.Summary := errorText err;
              diag.AttributePath := [];
              diag.Detail := "" |} ]).
Proof.
  split.
  - intros Hversion Hremote. unfold metakubeResourceValidateVersionExistence.
    destruct (assertString_returns _ Hversion) as [version ->]. simpl.
    now rewrite Hremote.
  - intros Hremote. unfold metakubeResourceClusterValidateVersionUpgrade.
    now rewrite Hremote.
Qed.

Lemma version_rules_report_failed_call_witness :
  metakubeResourceValidateVersionExistence noOpenstackConfig versionsFail =
  Ok [ {| diag.Severity := diag.Error;
          diag.Summary := "connection refused";
          diag.AttributePath := [];
          diag.Detail := "" |} ]
  /\ metakubeResourceClusterValidateVersionUpgrade "p1" "1.26.0" oldCluster upgradesFail =
     Ok [ {| diag.Severity := diag.Error;
             diag.Summary := "dial tcp: connection refused";
             diag.AttributePath := [];
             diag.Detail := "" |} ].
Proof.
  split.
  - exact (proj1 (version_rules_report_failed_call noOpenstackConfig versionsFail
                    "p1" "1.26.0" oldCluster connectionRefused) eq_refl eq_refl).
  - exact (proj2 (version_rules_report_failed_call noOpenstackConfig upgradesFail
                    "p1" "1.26.0" oldCluster connectionRefused) eq_refl).
Defined.

Lemma scanVersions_app_non_string
  (vs : list string) (bad : MasterVersion.t) (rest : list MasterVersion.t)
  (version : string) :
  isString (MasterVersion.Version bad) = false ->
  forall available,
    scanVersions (masterVersions vs ++ bad :: rest)%list version available =
    if existsb (fun v => String.eqb v version) vs then Ok None else Panic.
Proof.
  intros Hbad. induction vs as [|v vs IH]; intros available; simpl.
  - destruct (MasterVersion.Version bad); try reflexivity. discriminate Hbad.
  - destruct (String.eqb v version); simpl; [reflexivity|apply IH].
Qed.

(** A version list with an entry that is not a string, after the version
    strings [vs]: the existence rule yields no diagnostic when the requested
    version is among [vs], and panics otherwise, whatever follows the entry. *)
Theorem version_existence_non_string_entry
  (d : schema.ResourceData) (k : metakubeProviderMeta) (V : string)
  (vs : list string) (bad : MasterVersion.t) (rest : list MasterVersion.t) :
  schema.Get d "spec.0.version" = IStr V ->
  isString (MasterVersion.Version bad) = false ->
  GetMasterVersions k = Payload (masterVersions vs ++ bad :: rest)%list ->
  (In V vs -> metakubeResourceValidateVersionExistence d k = Ok [])
  /\ (~ In V vs -> metakubeResourceValidateVersionExistence d k = Panic).
Proof.
  intros Hget Hbad Hremote.
  unfold metakubeResourceValidateVersionExistence.
  rewrite Hget, Hremote. simpl. rewrite (scanVersions_app_non_string _ _ _ _ Hbad).
  split; intros HV.
  - apply existsb_eqb_In in HV. now rewrite HV.
  - destruct (existsb _ vs) eqn:E; [|reflexivity].
    apply existsb_eqb_In in E. contradiction.
Qed.

Lemma version_existence_non_string_entry_witness :
  metakubeResourceValidateVersionExistence
    (resourceData [("spec.0.version", "1.25.0")] false) brokenVersions = Ok []
  /\ metakubeResourceValidateVersionExistence
       (resourceData [("spec.0.version", "1.26.0")] false) brokenVersions = Panic.
Proof.
  split.
  - apply (proj1 (version_existence_non_string_entry
                    (resourceData [("spec.0.version", "1.25.0")] false) brokenVersions
                    "1.25.0" ["1.25.0"] (MasterVersion.Build_t INil)
                    (masterVersions ["1.26.0"]) eq_refl eq_refl eq_refl)).
    now left.
  - apply (proj2 (version_existence_non_string_entry
                    (resourceData [("spec.0.version", "1.26.0")] false) brokenVersions
                    "1.26.0" ["1.25.0"] (MasterVersion.Build_t INil)
                    (masterVersions ["1.26.0"]) eq_refl eq_refl eq_refl)).
    intros [H|[]]. discriminate H.
Defined.

(** ** The floating-IP-pool and network rules *)

Lemma newOpenstackValidationData_resourceData
  (fields : list (string * string)) (openstackBlock : bool) :
  newOpenstackValidationData (resourceData fields openstackBlock) = Ok (snapshotOf fields).
Proof.
  reflexivity.
Defined.

(** A field that is not set yields no diagnostic, whatever the client
    answers and whatever the other fields hold. *)
Theorem network_rules_skip_unset_field
  (d : schema.ResourceData) (k : metakubeProviderMeta) :
  (snd (schema.GetOk d "spec.0.cloud.0.openstack.0.floating_ip_pool") = false ->
   metakubeResourceClusterValidateFloatingIPPool d k = Ok [])
  /\ (snd (schema.GetOk d "spec.0.cloud.0.openstack.0.network") = false ->
      metakubeResourceClusterValidateOpenstackNetwork d k = Ok []).
Proof.
  unfold metakubeResourceClusterValidateFloatingIPPool,
    metakubeResourceClusterValidateOpenstackNetwork,
    validateOpenstackNetworkExistsIfSet.
  split; intros Hunset.
  - destruct (schema.GetOk d "spec.0.cloud.0.openstack.0.floating_ip_pool") as [value ok].
    simpl in Hunset. now subst ok.
  - destruct (schema.GetOk d "spec.0.cloud.0.openstack.0.network") as [value ok].
    simpl in Hunset. now subst ok.
Qed.

Lemma network_rules_skip_unset_field_witness :
  metakubeResourceClusterValidateFloatingIPPool noOpenstackConfig networksFail = Ok []
  /\ metakubeResourceClusterValidateOpenstackNetwork noOpenstackConfig networksFail = Ok [].
Proof.
  split.
  - exact (proj1 (network_rules_skip_unset_field noOpenstackConfig networksFail) eq_refl).
  - exact (proj2 (network_rules_skip_unset_field noOpenstackConfig networksFail) eq_refl).
Defined.

Section NetworkRules.

Variable d : schema.ResourceData.
Variable k : metakubeProviderMeta.
Variable data : metakubeResourceClusterOpenstackValidationData.
Hypothesis Hdata : newOpenstackValidationData d = Ok data.

(** A failed network call yields, for each of the two fields that is set,
    exactly one error diagnostic on that field: its summary carries the
    message of the failure and its detail is empty. *)
Theorem network_rules_report_failed_call (err : RemoteError) (pool name : string) :
  ListOpenstackNetworks k (setParams data openstack.NewListOpenstackNetworksParams)
  = Failed err ->
  (schema.GetOk d "spec.0.cloud.0.openstack.0.floating_ip_pool" = (IStr pool, true) ->
   metakubeResourceClusterValidateFloatingIPPool d k =
   Ok [ {| diag.Severity := diag.Error;
           diag.Summary := "invalid value: find network instance "
                           ++ stringifyResponseError err;
           diag.AttributePath :=
             [cty.GetAttrStep "spec"; cty.IndexStep 0; cty.GetAttrStep "cloud";
              cty.IndexStep 0; cty.GetAttrStep "openstack"; cty.IndexStep 0;
              cty.GetAttrStep "floating_ip_pool"];
           diag.Detail := "" |} ])
  /\ (schema.GetOk d "spec.0.cloud.0.openstack.0.network" = (IStr name, true) ->
      metakubeResourceClusterValidateOpenstackNetwork d k =
      Ok [ {| diag.Severity := diag.Error;
              diag.Summary := "invalid value: find network instance "
                              ++ stringifyResponseError err;
              diag.AttributePath :=
                [cty.GetAttrStep "spec"; cty.IndexStep 0; cty.GetAttrStep "cloud";
                 cty.IndexStep 0; cty.GetAttrStep "openstack"; cty.IndexStep 0;
                 cty.GetAttrStep "network"];
              diag.Detail := "" |} ]).
Proof.
  intros Hcall.
  unfold metakubeResourceClusterValidateFloatingIPPool,
    metakubeResourceClusterValidateOpenstackNetwork,
    validateOpenstackNetworkExistsIfSet.
  split; intros Hset; rewrite Hset; simpl; rewrite Hdata; simpl;
    unfold getNetwork; rewrite Hcall; reflexivity.
Qed.

Variable nets : list OpenstackNetwork.t.
Hypothesis Hnets :
  ListOpenstackNetworks k (setParams data openstack.NewListOpenstackNetworksParams)
  = Payload nets.

(** A pool that is an external network of the list, and a network that is
    a network of the list that is not external, yield no diagnostic. *)
Theorem network_rules_accept_listed_name
  (pool name : string) (poolNet nameNet : OpenstackNetwork.t) :
  (schema.GetOk d "spec.0.cloud.0.openstack.0.floating_ip_pool" = (IStr pool, true) ->
   findNetwork nets pool true = Some poolNet ->
   metakubeResourceClusterValidateFloatingIPPool d k = Ok [])
  /\ (schema.GetOk d "spec.0.cloud.0.openstack.0.network" = (IStr name, true) ->
      findNetwork nets name false = Some nameNet ->
      metakubeResourceClusterValidateOpenstackNetwork d k = Ok []).
Proof.
  unfold metakubeResourceClusterValidateFloatingIPPool,
    metakubeResourceClusterValidateOpenstackNetwork,
    validateOpenstackNetworkExistsIfSet.
  split; intros Hset Hfind; rewrite Hset; simpl; rewrite Hdata; simpl;
    unfold getNetwork; rewrite Hnets, Hfind; reflexivity.
Qed.

(** A pool that is no external network of the list yields exactly one error
    diagnostic on the floating_ip_pool field. Its detail is empty when the
    list is empty; otherwise it lists the names of the external networks, in
    the order of the list, and that list of names may be empty. *)
Theorem floating_ip_pool_not_found (pool : string) :
  schema.GetOk d "spec.0.cloud.0.openstack.0.floating_ip_pool" = (IStr pool, true) ->
  findNetwork nets pool true = None ->
  metakubeResourceClusterValidateFloatingIPPool d k =
  Ok [ {| diag.Severity := diag.Error;
          diag.Summary := "invalid value: network `" ++ pool ++ "` not found";
          diag.AttributePath :=
            [cty.GetAttrStep "spec"; cty.IndexStep 0; cty.GetAttrStep "cloud";
             cty.IndexStep 0; cty.GetAttrStep "openstack"; cty.IndexStep 0;
             cty.GetAttrStep "floating_ip_pool"];
          diag.Detail :=
            match nets with
            | [] => ""
            | _ :: _ =>
                "We found following floating IP pools: ["
                ++ String.concat " "
                     (map OpenstackNetwork.Name
                        (filter (fun n => OpenstackNetwork.External n) nets))
                ++ "]"
            end |} ].
Proof.
  intros Hset Hfind.
  unfold metakubeResourceClusterValidateFloatingIPPool,
    validateOpenstackNetworkExistsIfSet.
  rewrite Hset. simpl. rewrite Hdata. simpl. unfold getNetwork. rewrite Hnets, Hfind.
  destruct nets; reflexivity.
Qed.

(** A network that is no non-external network of the list yields exactly one
    error diagnostic on the network field. Its detail lists the names of the
    networks that are not external, in the order of the list, and is empty
    when there is none. *)
Theorem openstack_network_not_found (name : string) :
  schema.GetOk d "spec.0.cloud.0.openstack.0.network" = (IStr name, true) ->
  findNetwork nets name false = None ->
  metakubeResourceClusterValidateOpenstackNetwork d k =
  Ok [ {| diag.Severity := diag.Error;
          diag.Summary := "invalid value: network `" ++ name ++ "` not found";
          diag.AttributePath :=
            [cty.GetAttrStep "spec"; cty.IndexStep 0; cty.GetAttrStep "cloud";
             cty.IndexStep 0; cty.GetAttrStep "openstack"; cty.IndexStep 0;
             cty.GetAttrStep "network"];
          diag.Detail :=
            match filter (fun n => negb (OpenstackNetwork.External n)) nets with
            | [] => ""
            | internal =>
                "We found following networks: ["
                ++ String.concat " " (map OpenstackNetwork.Name internal) ++ "]"
            end |} ].
Proof.
  intros Hset Hfind.
  unfold metakubeResourceClusterValidateOpenstackNetwork,
    validateOpenstackNetworkExistsIfSet.
  rewrite Hset. simpl. rewrite Hdata. simpl. unfold getNetwork. rewrite Hnets, Hfind.
  simpl.
  rewrite (filter_ext _ (fun n => negb (OpenstackNetwork.External n)))
    by (intros n; now destruct (OpenstackNetwork.External n)).
  destruct (filter _ nets); reflexivity.
Qed.

End NetworkRules.

Lemma network_rules_report_failed_call_witness :
  metakubeResourceClusterValidateFloatingIPPool
    (resourceData poolAndNetworkFields true) networksFail =
  Ok [ {| diag.Severity := diag.Error;
          diag.Summary := "invalid value: find network instance connection refused";
          diag.AttributePath :=
            [cty.GetAttrStep "spec"; cty.IndexStep 0; cty.GetAttrStep "cloud";
             cty.IndexStep 0; cty.GetAttrStep "openstack"; cty.IndexStep 0;
             cty.GetAttrStep "floating_ip_pool"];
          diag.Detail := "" |} ]
  /\ metakubeResourceClusterValidateOpenstackNetwork
       (resourceData poolAndNetworkFields true) networksFail =
     Ok [ {| diag.Severity := diag.Error;
             diag.Summary := "invalid value: find network instance connection refused";
             diag.AttributePath :=
               [cty.GetAttrStep "spec"; cty.IndexStep 0; cty.GetAttrStep "cloud";
                cty.IndexStep 0; cty.GetAttrStep "openstack"; cty.IndexStep 0;
                cty.GetAttrStep "network"];
             diag.Detail := "" |} ].
Proof.
  destruct (network_rules_report_failed_call
              (resourceData poolAndNetworkFields true) networksFail
              (snapshotOf poolAndNetworkFields) eq_refl
              connectionRefused "ext-net" "prod-net" eq_refl) as [Hpool Hnet].
  split; [exact (Hpool eq_refl)|exact (Hnet eq_refl)].
Defined.

Lemma network_rules_accept_listed_name_witness :
  metakubeResourceClusterValidateFloatingIPPool
    (resourceData poolAndNetworkFields true) extNetClient = Ok []
  /\ metakubeResourceClusterValidateOpenstackNetwork
       (resourceData poolAndNetworkFields true) extNetClient = Ok [].
Proof.
  destruct (network_rules_accept_listed_name
              (resourceData poolAndNetworkFields true) extNetClient
              (snapshotOf poolAndNetworkFields) eq_refl [prodNet; extNet] eq_refl
              "ext-net" "prod-net" extNet prodNet) as [Hpool Hnet].
  split; [exact (Hpool eq_refl eq_refl)|exact (Hnet eq_refl eq_refl)].
Defined.

Lemma floating_ip_pool_not_found_witness :
  metakubeResourceClusterValidateFloatingIPPool
    (resourceData unknownNamesFields true) extNetClient =
  Ok [ {| diag.Severity := diag.Error;
          diag.Summary := "invalid value: network `ext-pool` not found";
          diag.AttributePath :=
            [cty.GetAttrStep "spec"; cty.IndexStep 0; cty.GetAttrStep "cloud";
             cty.IndexStep 0; cty.GetAttrStep "openstack"; cty.IndexStep 0;
             cty.GetAttrStep "floating_ip_pool"];
          diag.Detail := "We found following floating IP pools: [ext-net]" |} ].
Proof.
  exact (floating_ip_pool_not_found
           (resourceData unknownNamesFields true) extNetClient
           (snapshotOf unknownNamesFields) eq_refl [prodNet; extNet] eq_refl
           "ext-pool" eq_refl eq_refl).
Defined.

Lemma openstack_network_not_found_witness :
  metakubeResourceClusterValidateOpenstackNetwork
    (resourceData unknownNamesFields true) extNetClient =
  Ok [ {| diag.Severity := diag.Error;
          diag.Summary := "invalid value: network `lab-net` not found";
          diag.AttributePath :=
            [cty.GetAttrStep "spec"; cty.IndexStep 0; cty.GetAttrStep "cloud";
             cty.IndexStep 0; cty.GetAttrStep "openstack"; cty.IndexStep 0;
             cty.GetAttrStep "network"];
          diag.Detail := "We found following networks: [prod-net]" |} ].
Proof.
  exact (openstack_network_not_found
           (resourceData unknownNamesFields true) extNetClient
           (snapshotOf unknownNamesFields) eq_refl [prodNet; extNet] eq_refl
           "lab-net" eq_refl eq_refl).
Defined.

(** ** The credential rule, the other branches *)

Section CredentialBranches.

Variable d : schema.ResourceData.
Variable data : metakubeResourceClusterOpenstackValidationData.
Hypothesis Hdata : newOpenstackValidationData d = Ok data.

(** The credential rule yields no diagnostic in three cases and no other:
    no credential field is set; username, password and tenant are all set
    and no application-credential field is; both application-credential
    fields are set and none of username, password, tenant is. *)
Theorem credentials_accepted_iff :
  metakubeResourceClusterValidateAccessCredentialsSet d = Ok [] <->
  (nonEmpty (username data) = false /\ nonEmpty (password data) = false
   /\ nonEmpty (tenant data) = false
   /\ nonEmpty (applicationCredentialsID data) = false
   /\ nonEmpty (applicationCredentialsSecret data) = false)
  \/ (nonEmpty (username data) = true /\ nonEmpty (password data) = true
      /\ nonEmpty (tenant data) = true
      /\ nonEmpty (applicationCredentialsID data) = false
      /\ nonEmpty (applicationCredentialsSecret data) = false)
  \/ (nonEmpty (username data) = false /\ nonEmpty (password data) = false
      /\ nonEmpty (tenant data) = false
      /\ nonEmpty (applicationCredentialsID data) = true
      /\ nonEmpty (applicationCredentialsSecret data) = true).
Proof.
  unfold metakubeResourceClusterValidateAccessCredentialsSet.
  rewrite Hdata. simpl. unfold accessCredentialsDiagnostics.
  destruct (nonEmpty (username data)), (nonEmpty (password data)),
    (nonEmpty (tenant data)), (nonEmpty (applicationCredentialsID data)),
    (nonEmpty (applicationCredentialsSecret data)); simpl;
    (split;
     [ intros H; try discriminate H; tauto
     | intros [H|[H|H]]; decompose [and] H; try discriminate; reflexivity ]).
Qed.

(** When some but not all of username, password, tenant are set and no
    application-credential field is, the credential rule yields exactly one
    error diagnostic whose detail names the fields that are not set, and
    only those, in the order username, password, tenant. *)
Theorem credentials_partial_basic_lists_missing :
  nonEmpty (applicationCredentialsID data) = false ->
  nonEmpty (applicationCredentialsSecret data) = false ->
  nonEmpty (username data) || nonEmpty (password data) || nonEmpty (tenant data) = true ->
  nonEmpty (username data) && nonEmpty (password data) && nonEmpty (tenant data) = false ->
  metakubeResourceClusterValidateAccessCredentialsSet d =
  Ok [ {| diag.Severity := diag.Error;
          diag.Summary := "Please set all username, password, tenant fields or use application_credentials_id, application_credentials_secret fields";
          diag.AttributePath :=
            [cty.GetAttrStep "spec"; cty.IndexStep 0; cty.GetAttrStep "cloud";
             cty.IndexStep 0; cty.GetAttrStep "openstack"; cty.IndexStep 0];
          diag.Detail :=
            String.concat ", "
              ((if nonEmpty (username data) then [] else ["username not set"])
               ++ (if nonEmpty (password data) then [] else ["password not set"])
               ++ (if nonEmpty (tenant data) then [] else ["tenant not set"]))%list |} ].
Proof.
  intros Hid Hsecret Hsome Hnotall.
  unfold metakubeResourceClusterValidateAccessCredentialsSet.
  rewrite Hdata. simpl. unfold accessCredentialsDiagnostics.
  rewrite Hid, Hsecret.
  destruct (nonEmpty (username data)), (nonEmpty (password data)),
    (nonEmpty (tenant data)); simpl in Hsome, Hnotall;
    try discriminate Hsome; try discriminate Hnotall; reflexivity.
Qed.

(** When exactly one of the two application-credential fields is set and
    none of username, password, tenant is, the credential rule yields
    exactly one error diagnostic, on the OpenStack block, whose detail names
    the application-credential field that is not set. *)
Theorem credentials_partial_application_credentials :
  nonEmpty (username data) = false ->
  nonEmpty (password data) = false ->
  nonEmpty (tenant data) = false ->
  nonEmpty (applicationCredentialsID data)
  <> nonEmpty (applicationCredentialsSecret data) ->
  metakubeResourceClusterValidateAccessCredentialsSet d =
  Ok [ {| diag.Severity := diag.Error;
          diag.Summary := "Please set both application_credentials_id, application_credentials_secret fields";
          diag.AttributePath :=
            [cty.GetAttrStep "spec"; cty.IndexStep 0; cty.GetAttrStep "cloud";
             cty.IndexStep 0; cty.GetAttrStep "openstack"; cty.IndexStep 0];
          diag.Detail :=
            if nonEmpty (applicationCredentialsID data)
            then "application_credentials_secret not set"
            else "application_credentials_id not set" |} ].
Proof.
  intros Hu Hp Ht Hone.
  unfold metakubeResourceClusterValidateAccessCredentialsSet.
  rewrite Hdata. simpl. unfold accessCredentialsDiagnostics.
  rewrite Hu, Hp, Ht.
  destruct (nonEmpty (applicationCredentialsID data)),
    (nonEmpty (applicationCredentialsSecret data)); simpl;
    try reflexivity; now destruct Hone.
Qed.

End CredentialBranches.

Lemma credentials_accepted_iff_witness :
  metakubeResourceClusterValidateAccessCredentialsSet (resourceData basicAuthFields true)
  = Ok [].
Proof.
  apply (proj2 (credentials_accepted_iff (resourceData basicAuthFields true)
                  (snapshotOf basicAuthFields) eq_refl)).
  right. left. repeat split.
Defined.

Lemma credentials_partial_basic_lists_missing_witness :
  metakubeResourceClusterValidateAccessCredentialsSet (resourceData noTenantFields true) =
  Ok [ {| diag.Severity := diag.Error;
          diag.Summary := "Please set all username, password, tenant fields or use application_credentials_id, application_credentials_secret fields";
          diag.AttributePath :=
            [cty.GetAttrStep "spec"; cty.IndexStep 0; cty.GetAttrStep "cloud";
             cty.IndexStep 0; cty.GetAttrStep "openstack"; cty.IndexStep 0];
          diag.Detail := "tenant not set" |} ].
Proof.
  exact (credentials_partial_basic_lists_missing (resourceData noTenantFields true)
           (snapshotOf noTenantFields) eq_refl eq_refl eq_refl eq_refl eq_refl).
Defined.

Lemma credentials_partial_application_credentials_witness :
  metakubeResourceClusterValidateAccessCredentialsSet (resourceData appIdOnlyFields true) =
  Ok [ {| diag.Severity := diag.Error;
          diag.Summary := "Please set both application_credentials_id, application_credentials_secret fields";
          diag.AttributePath :=
            [cty.GetAttrStep "spec"; cty.IndexStep 0; cty.GetAttrStep "cloud";
             cty.IndexStep 0; cty.GetAttrStep "openstack"; cty.IndexStep 0];
          diag.Detail := "application_credentials_secret not set" |} ].
Proof.
  apply (credentials_partial_application_credentials (resourceData appIdOnlyFields true)
           (snapshotOf appIdOnlyFields) eq_refl eq_refl eq_refl eq_refl).
  discriminate.
Defined.

(** ** The subnet rule, the other branches *)

Section SubnetBranches.

Variable d : schema.ResourceData.
Variable k : metakubeProviderMeta.
Variable data : metakubeResourceClusterOpenstackValidationData.
Hypothesis Hdata : newOpenstackValidationData d = Ok data.

(** The subnet rule yields no diagnostic when the network name or the
    subnet id is nil, when the network call fails, and when no external
    network of the list bears the configured name. *)
Theorem subnet_rule_silent_cases :
  network data = None
  \/ subnetID data = None
  \/ (exists name, network data = Some name
      /\ ((exists err,
             ListOpenstackNetworks k
               (setParams data openstack.NewListOpenstackNetworksParams) = Failed err)
          \/ (exists nets,
                ListOpenstackNetworks k
                  (setParams data openstack.NewListOpenstackNetworksParams) = Payload nets
                /\ findNetwork nets name true = None))) ->
  diagnoseOpenstackSubnetWithIDExistsIfSet d k = Ok [].
Proof.
  intros [Hnone|[Hnone|[name [Hname Hcall]]]];
    unfold diagnoseOpenstackSubnetWithIDExistsIfSet; rewrite Hdata; simpl.
  - now rewrite Hnone.
  - rewrite Hnone. now destruct (network data).
  - rewrite Hname. destruct (subnetID data) as [sid|]; [|reflexivity].
    unfold getNetwork. destruct Hcall as [[err Hcall]|[nets [Hcall Hfind]]].
    + now rewrite Hcall.
    + now rewrite Hcall, Hfind.
Qed.

Variables name sid : string.
Variable nets : list OpenstackNetwork.t.
Variable net : OpenstackNetwork.t.
Variable subnets : list OpenstackSubnet.t.

Hypothesis Hname : network data = Some name.
Hypothesis Hsid : subnetID data = Some sid.
Hypothesis Hnets :
  ListOpenstackNetworks k (setParams data openstack.NewListOpenstackNetworksParams)
  = Payload nets.
Hypothesis Hfound : findNetwork nets name true = Some net.
Hypothesis Hsubnets :
  ListOpenstackSubnets k
    (openstack.SetNetworkID (Some (OpenstackNetwork.ID net))
       (setParams data openstack.NewListOpenstackSubnetsParams)) = Payload subnets.

(** When the network resolves as an external one and one of its subnets has
    the configured id, the subnet rule yields no diagnostic. *)
Theorem subnet_listed_no_diagnostic :
  In sid (map OpenstackSubnet.ID subnets) ->
  diagnoseOpenstackSubnetWithIDExistsIfSet d k = Ok [].
Proof.
  intros Hin. apply findSubnet_listed in Hin. destruct Hin as [item Hitem].
  unfold diagnoseOpenstackSubnetWithIDExistsIfSet.
  rewrite Hdata. simpl. rewrite Hname, Hsid.
  unfold getNetwork. rewrite Hnets, Hfound.
  unfold getSubnet. rewrite Hsubnets, Hsid, Hitem. reflexivity.
Qed.

(** When the network resolves as an external one and none of its subnets
    has the configured id, the detail of the diagnostic lists every subnet
    as name/id, in the order of the list; it is empty when the network has
    no subnet. *)
Theorem subnet_not_listed_detail :
  ~ In sid (map OpenstackSubnet.ID subnets) ->
  exists dg,
    diagnoseOpenstackSubnetWithIDExistsIfSet d k = Ok [dg]
    /\ diag.Detail dg =
       match subnets with
       | [] => ""
       | _ :: _ =>
           "We found following subnets (name/id): ["
           ++ String.concat " "
                (map (fun i => OpenstackSubnet.Name i ++ "/" ++ OpenstackSubnet.ID i)
                   subnets)
           ++ "]"
       end.
Proof.
  intros Hnotin.
  assert (Hmiss : findSubnet subnets sid = None).
  { destruct (findSubnet subnets sid) as [item|] eqn:E; [|reflexivity].
    destruct Hnotin. apply findSubnet_listed. now exists item. }
  unfold diagnoseOpenstackSubnetWithIDExistsIfSet.
  rewrite Hdata. simpl. rewrite Hname, Hsid.
  unfold getNetwork. rewrite Hnets, Hfound.
  unfold getSubnet. rewrite Hsubnets, Hsid, Hmiss. simpl.
  eexists. split; [reflexivity|]. simpl. destruct subnets; reflexivity.
Qed.

End SubnetBranches.

Lemma subnet_rule_silent_cases_witness :
  diagnoseOpenstackSubnetWithIDExistsIfSet (resourceData extNetFields true) networksFail
  = Ok []
  /\ diagnoseOpenstackSubnetWithIDExistsIfSet (resourceData prodNetFields true)
       prodNetClient = Ok [].
Proof.
  split.
  - apply (subnet_rule_silent_cases (resourceData extNetFields true) networksFail
             (snapshotOf extNetFields) eq_refl).
    right. right. exists "ext-net". split; [reflexivity|].
    left. exists connectionRefused. reflexivity.
  - apply (subnet_rule_silent_cases (resourceData prodNetFields true) prodNetClient
             (snapshotOf prodNetFields) eq_refl).
    right. right. exists "prod-net". split; [reflexivity|].
    right. exists [prodNet]. split; reflexivity.
Defined.

Lemma subnet_listed_no_diagnostic_witness :
  diagnoseOpenstackSubnetWithIDExistsIfSet (resourceData extNetS1Fields true) extNetClient
  = Ok [].
Proof.
  apply (subnet_listed_no_diagnostic (resourceData extNetS1Fields true) extNetClient
           (snapshotOf extNetS1Fields) eq_refl "ext-net" "s1" [prodNet; extNet] extNet
           [subnetS1; subnetS2] eq_refl eq_refl eq_refl eq_refl eq_refl).
  now left.
Defined.

Lemma subnet_not_listed_detail_witness :
  exists dg,
    diagnoseOpenstackSubnetWithIDExistsIfSet (resourceData extNetFields true) extNetClient
    = Ok [dg]
    /\ diag.Detail dg = "We found following subnets (name/id): [/s1 /s2]".
Proof.
  apply (subnet_not_listed_detail (resourceData extNetFields true) extNetClient
           (snapshotOf extNetFields) eq_refl "ext-net" "s9" [prodNet; extNet] extNet
           [subnetS1; subnetS2] eq_refl eq_refl eq_refl eq_refl eq_refl).
  intros [H|[H|[]]]; discriminate H.
Defined.

(** ** How the rules on the network field combine *)

Lemma NoDup_map_injective {A B : Type} (f : A -> B) (l : list A) (a b : A) :
  NoDup (map f l) -> In a l -> In b l -> f a = f b -> a = b.
Proof.
  induction l as [|x l IH]; simpl; [intros _ []|].
  intros Hnodup Ha Hb Hf. inversion Hnodup as [|y ys Hnotin Hrest]; subst.
  destruct Ha as [<-|Ha], Hb as [<-|Hb].
  - reflexivity.
  - destruct Hnotin. rewrite Hf. now apply in_map.
  - destruct Hnotin. rewrite <- Hf. now apply in_map.
  - now apply IH.
Qed.

Lemma unique_name_one_flag (nets : list OpenstackNetwork.t) (name : string)
  (e1 e2 : bool) (a b : OpenstackNetwork.t) :
  NoDup (map OpenstackNetwork.Name nets) ->
  findNetwork nets name e1 = Some a ->
  findNetwork nets name e2 = Some b ->
  e1 = e2.
Proof.
  intros Hnodup Ha Hb.
  destruct (findNetwork_sound _ _ _ _ Ha) as [Hina [Hna Hea]].
  destruct (findNetwork_sound _ _ _ _ Hb) as [Hinb [Hnb Heb]].
  assert (a = b) by
    (apply (NoDup_map_injective OpenstackNetwork.Name nets); congruence).
  congruence.
Qed.

Section NetworkField.

Variable d : schema.ResourceData.
Variable k : metakubeProviderMeta.
Variable data : metakubeResourceClusterOpenstackValidationData.
Variable nets : list OpenstackNetwork.t.
Variable name : string.

Hypothesis Hdata : newOpenstackValidationData d = Ok data.
Hypothesis Hnets :
  ListOpenstackNetworks k (setParams data openstack.NewListOpenstackNetworksParams)
  = Payload nets.
Hypothesis Hunique : NoDup (map OpenstackNetwork.Name nets).
Hypothesis Hnetwork :
  schema.GetOk d "spec.0.cloud.0.openstack.0.network" = (IStr name, true).

(** When the names of the listed networks are distinct and the network rule
    accepts the configured network, the subnet rule yields no diagnostic,
    whatever the subnet id and the subnets are. *)
Theorem accepted_network_skips_subnet_check :
  network data = Some name ->
  metakubeResourceClusterValidateOpenstackNetwork d k = Ok [] ->
  diagnoseOpenstackSubnetWithIDExistsIfSet d k = Ok [].
Proof.
  intros Hname Haccepted.
  unfold metakubeResourceClusterValidateOpenstackNetwork,
    validateOpenstackNetworkExistsIfSet in Haccepted.
  rewrite Hnetwork in Haccepted. simpl in Haccepted.
  rewrite Hdata in Haccepted. simpl in Haccepted.
  unfold getNetwork in Haccepted. rewrite Hnets in Haccepted.
  destruct (findNetwork nets name false) as [internal|] eqn:Hinternal;
    [|discriminate Haccepted].
  unfold diagnoseOpenstackSubnetWithIDExistsIfSet.
  rewrite Hdata. simpl. rewrite Hname.
  destruct (subnetID data) as [sid|]; [|reflexivity].
  unfold getNetwork. rewrite Hnets.
  destruct (findNetwork nets name true) as [external|] eqn:Hexternal; [|reflexivity].
  discriminate (unique_name_one_flag _ _ _ _ _ _ Hunique Hinternal Hexternal).
Qed.

(** When the names of the listed networks are distinct, one name cannot
    pass both as floating IP pool and as network. *)
Theorem pool_and_network_differ :
  schema.GetOk d "spec.0.cloud.0.openstack.0.floating_ip_pool" = (IStr name, true) ->
  ~ (metakubeResourceClusterValidateFloatingIPPool d k = Ok []
     /\ metakubeResourceClusterValidateOpenstackNetwork d k = Ok []).
Proof.
  intros Hpool [Hfip Hnet].
  unfold metakubeResourceClusterValidateFloatingIPPool,
    validateOpenstackNetworkExistsIfSet in Hfip.
  rewrite Hpool in Hfip. simpl in Hfip. rewrite Hdata in Hfip. simpl in Hfip.
  unfold getNetwork in Hfip. rewrite Hnets in Hfip.
  destruct (findNetwork nets name true) as [external|] eqn:Hexternal;
    [|discriminate Hfip].
  unfold metakubeResourceClusterValidateOpenstackNetwork,
    validateOpenstackNetworkExistsIfSet in Hnet.
  rewrite Hnetwork in Hnet. simpl in Hnet. rewrite Hdata in Hnet. simpl in Hnet.
  unfold getNetwork in Hnet. rewrite Hnets in Hnet.
  destruct (findNetwork nets name false) as [internal|] eqn:Hinternal;
    [|discriminate Hnet].
  discriminate (unique_name_one_flag _ _ _ _ _ _ Hunique Hinternal Hexternal).
Qed.

End NetworkField.

Lemma accepted_network_skips_subnet_check_witness :
  diagnoseOpenstackSubnetWithIDExistsIfSet (resourceData prodNetFields true) prodNetClient
  = Ok [].
Proof.
  apply (accepted_network_skips_subnet_check (resourceData prodNetFields true)
           prodNetClient (snapshotOf prodNetFields) [prodNet] "prod-net"
           eq_refl eq_refl).
  - repeat constructor. intros [].
  - reflexivity.
  - reflexivity.
  - reflexivity.
Defined.

Lemma pool_and_network_differ_witness :
  ~ (metakubeResourceClusterValidateFloatingIPPool
       (resourceData sameNameFields true) extNetClient = Ok []
     /\ metakubeResourceClusterValidateOpenstackNetwork
          (resourceData sameNameFields true) extNetClient = Ok []).
Proof.
  apply (pool_and_network_differ (resourceData sameNameFields true) extNetClient
           (snapshotOf sameNameFields) [prodNet; extNet] "ext-net" eq_refl eq_refl).
  - repeat constructor; simpl; intros H; repeat (destruct H as [H|H]; try discriminate H);
      exact H.
  - reflexivity.
  - reflexivity.
Defined.

(** ** The orchestrator as a whole *)

(** The orchestrator returns at most five diagnostics, and at most one
    without an OpenStack block; on a configuration whose string fields hold
    strings, with a client whose version lists hold strings, it returns. *)
Theorem cluster_fields_at_most_five
  (d : schema.ResourceData) (k : metakubeProviderMeta) :
  (forall ds, metakubeResourceClusterValidateClusterFields d k = Ok ds ->
     (length ds <= 5)%nat
     /\ (snd (schema.GetOk d "spec.0.cloud.0.openstack.0") = false ->
         (length ds <= 1)%nat))
  /\ (stringTypedConfig d -> stringTypedClient k ->
      returns (metakubeResourceClusterValidateClusterFields d k)).
Proof.
  unfold metakubeResourceClusterValidateClusterFields. split.
  - intros ds.
    pose proof (version_existence_atMostOne d k) as Hver.
    pose proof (floating_ip_pool_atMostOne d k) as Hfip.
    pose proof (openstack_network_atMostOne d k) as Hnet.
    pose proof (access_credentials_atMostOne d) as Hcred.
    pose proof (subnet_atMostOne d k) as Hsub.
    destruct (metakubeResourceValidateVersionExistence d k) as [ver|];
      [|discriminate]; simpl.
    specialize (Hver ver eq_refl).
    destruct (schema.GetOk d "spec.0.cloud.0.openstack.0") as [value ok].
    destruct ok; simpl.
    + destruct (metakubeResourceClusterValidateFloatingIPPool d k) as [fip|];
        [|discriminate]; simpl.
      destruct (metakubeResourceClusterValidateOpenstackNetwork d k) as [net|];
        [|discriminate]; simpl.
      destruct (metakubeResourceClusterValidateAccessCredentialsSet d) as [cred|];
        [|discriminate]; simpl.
      destruct (diagnoseOpenstackSubnetWithIDExistsIfSet d k) as [sub|];
        [|discriminate]; simpl.
      specialize (Hfip fip eq_refl). specialize (Hnet net eq_refl).
      specialize (Hcred cred eq_refl). specialize (Hsub sub eq_refl).
      intros Hret. inversion Hret. subst ds.
      rewrite !length_app. split; [lia|discriminate].
    + intros Hret. inversion Hret. subst ds. split; [lia|intros _; exact Hver].
  - intros Hd Hk.
    destruct (version_existence_returns d k Hd Hk) as [ver ->]. simpl.
    destruct (schema.GetOk d "spec.0.cloud.0.openstack.0") as [value ok].
    destruct ok; simpl; [|now eexists].
    destruct (floating_ip_pool_returns d k Hd) as [fip ->]. simpl.
    destruct (openstack_network_returns d k Hd) as [net ->]. simpl.
    destruct (access_credentials_returns d Hd) as [cred ->]. simpl.
    destruct (subnet_returns d k Hd) as [sub ->]. simpl.
    now eexists.
Qed.

Lemma cluster_fields_at_most_five_witness :
  exists ds,
    metakubeResourceClusterValidateClusterFields (resourceData unknownNamesFields true)
      upgradeClient = Ok ds
    /\ (length ds <= 5)%nat.
Proof.
  destruct (cluster_fields_at_most_five (resourceData unknownNamesFields true)
              upgradeClient) as [Hbound Hreturns].
  destruct (Hreturns (resourceData_stringTyped _ _) (clientOf_stringTyped _ _ _ _))
    as [ds Hds].
  exists ds. split; [exact Hds|exact (proj1 (Hbound ds Hds))].
Defined.

Ltac only_errors :=
  let ds := fresh "ds" in
  let dg := fresh "dg" in
  let Hret := fresh "Hret" in
  let Hin := fresh "Hin" in
  intros ds dg Hret Hin; inversion Hret; subst;
  simpl in Hin; repeat (destruct Hin as [Hin|Hin]; [subst; reflexivity|]);
  contradiction.

Lemma version_existence_allErrors (d : schema.ResourceData) (k : metakubeProviderMeta) :
  allErrors (metakubeResourceValidateVersionExistence d k).
Proof.
  unfold metakubeResourceValidateVersionExistence.
  destruct (assertString (schema.Get d "spec.0.version")) as [version|]; simpl;
    [|only_errors].
  destruct (GetMasterVersions k) as [err|payload]; [only_errors|].
  destruct (scanVersions payload version []) as [[available|]|]; simpl; only_errors.
Qed.

Lemma version_upgrade_allErrors (projectID newVersion : string) (cluster : Cluster.t)
  (k : metakubeProviderMeta) :
  allErrors (metakubeResourceClusterValidateVersionUpgrade projectID newVersion cluster k).
Proof.
  unfold metakubeResourceClusterValidateVersionUpgrade.
  destruct (GetClusterUpgradesV2 k projectID (Cluster.ID cluster)) as [err|payload];
    [only_errors|].
  destruct (scanVersions payload newVersion []) as [[available|]|]; simpl; only_errors.
Qed.

Lemma floating_ip_pool_allErrors (d : schema.ResourceData) (k : metakubeProviderMeta) :
  allErrors (metakubeResourceClusterValidateFloatingIPPool d k).
Proof.
  unfold metakubeResourceClusterValidateFloatingIPPool.
  destruct (validateOpenstackNetworkExistsIfSet d k _ true) as [[nets [msg|]]|];
    simpl; only_errors.
Qed.

Lemma openstack_network_allErrors (d : schema.ResourceData) (k : metakubeProviderMeta) :
  allErrors (metakubeResourceClusterValidateOpenstackNetwork d k).
Proof.
  unfold metakubeResourceClusterValidateOpenstackNetwork.
  destruct (validateOpenstackNetworkExistsIfSet d k _ false) as [[nets [msg|]]|];
    simpl; only_errors.
Qed.

Lemma access_credentials_allErrors (d : schema.ResourceData) :
  allErrors (metakubeResourceClusterValidateAccessCredentialsSet d).
Proof.
  unfold metakubeResourceClusterValidateAccessCredentialsSet.
  destruct (newOpenstackValidationData d) as [data|]; simpl; [|only_errors].
  unfold accessCredentialsDiagnostics.
  destruct (nonEmpty (username data)), (nonEmpty (password data)),
    (nonEmpty (tenant data)), (nonEmpty (applicationCredentialsID data)),
    (nonEmpty (applicationCredentialsSecret data)); simpl; only_errors.
Qed.

Lemma subnet_allErrors (d : schema.ResourceData) (k : metakubeProviderMeta) :
  allErrors (diagnoseOpenstackSubnetWithIDExistsIfSet d k).
Proof.
  unfold diagnoseOpenstackSubnetWithIDExistsIfSet.
  destruct (newOpenstackValidationData d) as [data|]; simpl; [|only_errors].
  destruct (network data) as [name|]; [|only_errors].
  destruct (subnetID data) as [sid|]; [|only_errors].
  destruct (getNetwork k data name true) as [[nw all] [msg|]]; [only_errors|].
  destruct nw as [nw|]; [|only_errors].
  destruct (getSubnet k data (OpenstackNetwork.ID nw)) as [[[subnets ok] err]|];
    simpl; [|only_errors].
  destruct ok; only_errors.
Qed.

(** No rule ever emits a warning: every diagnostic of the orchestrator and
    of the upgrade rule has the severity error. *)
Theorem all_diagnostics_are_errors
  (d : schema.ResourceData) (k : metakubeProviderMeta)
  (projectID newVersion : string) (cluster : Cluster.t) :
  allErrors (metakubeResourceClusterValidateClusterFields d k)
  /\ allErrors (metakubeResourceClusterValidateVersionUpgrade projectID newVersion cluster k).
Proof.
  split; [|apply version_upgrade_allErrors].
  pose proof (version_existence_allErrors d k) as Hver.
  pose proof (floating_ip_pool_allErrors d k) as Hfip.
  pose proof (openstack_network_allErrors d k) as Hnet.
  pose proof (access_credentials_allErrors d) as Hcred.
  pose proof (subnet_allErrors d k) as Hsub.
  unfold metakubeResourceClusterValidateClusterFields.
  intros ds dg.
  destruct (metakubeResourceValidateVersionExistence d k) as [ver|];
    [|discriminate]; simpl.
  destruct (schema.GetOk d "spec.0.cloud.0.openstack.0") as [value ok].
  destruct ok; simpl.
  - destruct (metakubeResourceClusterValidateFloatingIPPool d k) as [fip|];
      [|discriminate]; simpl.
    destruct (metakubeResourceClusterValidateOpenstackNetwork d k) as [net|];
      [|discriminate]; simpl.
    destruct (metakubeResourceClusterValidateAccessCredentialsSet d) as [cred|];
      [|discriminate]; simpl.
    destruct (diagnoseOpenstackSubnetWithIDExistsIfSet d k) as [sub|];
      [|discriminate]; simpl.
    intros Hret Hin. inversion Hret. subst ds.
    repeat (apply in_app_or in Hin; destruct Hin as [Hin|Hin]);
      [ exact (Hver _ _ eq_refl Hin) | exact (Hfip _ _ eq_refl Hin)
      | exact (Hnet _ _ eq_refl Hin) | exact (Hcred _ _ eq_refl Hin)
      | exact (Hsub _ _ eq_refl Hin) ].
  - intros Hret Hin. inversion Hret. subst ds. exact (Hver _ _ eq_refl Hin).
Qed.

Lemma all_diagnostics_are_errors_witness :
  diag.Severity
    {| diag.Severity := diag.Error;
       diag.Summary := "unknown version 1.99.0";
       diag.AttributePath :=
         [cty.GetAttrStep "spec"; cty.IndexStep 0; cty.GetAttrStep "version"];
       diag.Detail := "Please select one of available versions: [1.25.0 1.26.0]" |}
  = diag.Error.
Proof.
  exact (proj1 (all_diagnostics_are_errors noOpenstackConfig prodNetClient
                  "p1" "1.27.0" oldCluster) _ _ eq_refl (or_introl eq_refl)).
Defined.

(** ** The configuration snapshot *)

Lemma bind_Ok_inv {A B : Type} (r : result A) (f : A -> result B) (b : B) :
  bind r f = Ok b -> exists a, r = Ok a /\ f a = Ok b.
Proof.
  destruct r as [a|]; simpl; [|discriminate]. intros H. now exists a.
Qed.

Lemma toStrPtrOrNil_ptrValue (v : iface) (p : option string) :
  toStrPtrOrNil v = Ok p -> v = ptrValue p.
Proof.
  destruct v; simpl; intros H; inversion H; reflexivity.
Qed.

Lemma newOpenstackValidationData_fields
  (d : schema.ResourceData) (data : metakubeResourceClusterOpenstackValidationData) :
  newOpenstackValidationData d = Ok data ->
  domain data = Some "Default"
  /\ schema.Get d "dc_name" = ptrValue (dcName data)
  /\ schema.Get d "spec.0.cloud.0.openstack.0.username" = ptrValue (username data)
  /\ schema.Get d "spec.0.cloud.0.openstack.0.password" = ptrValue (password data)
  /\ schema.Get d "spec.0.cloud.0.openstack.0.tenant" = ptrValue (tenant data)
  /\ schema.Get d "spec.0.cloud.0.openstack.0.application_credentials_id"
     = ptrValue (applicationCredentialsID data)
  /\ schema.Get d "spec.0.cloud.0.openstack.0.application_credentials_secret"
     = ptrValue (applicationCredentialsSecret data)
  /\ schema.Get d "spec.0.cloud.0.openstack.0.network" = ptrValue (network data)
  /\ schema.Get d "spec.0.cloud.0.openstack.0.subnet_id" = ptrValue (subnetID data).
Proof.
  intros H. unfold newOpenstackValidationData in H.
  repeat match type of H with
         | bind _ _ = Ok _ =>
             let p := fresh "p" in
             let Hp := fresh "Hp" in
             apply bind_Ok_inv in H; destruct H as [p [Hp H]];
             apply toStrPtrOrNil_ptrValue in Hp
         end.
  inversion H. subst data. simpl. repeat split; assumption.
Qed.

Lemma ptrValue_string (p : option string) (s : string) :
  ptrValue p = IStr s -> p = Some s.
Proof.
  destruct p; simpl; intros H; inversion H; reflexivity.
Qed.

(** [newOpenstackValidationData] returns exactly when none of the eight
    keys it reads holds a value that is neither nil nor a string. What it
    returns has the domain "Default" and keeps every value as it is: a field
    is nil only for a nil value, and an empty string stays a pointer to the
    empty string. *)
Theorem newOpenstackValidationData_keeps_values (d : schema.ResourceData) :
  (returns (newOpenstackValidationData d) <->
   Forall (fun key => stringOrNil (schema.Get d key) = true) openstackStringKeys)
  /\ forall data, newOpenstackValidationData d = Ok data ->
       domain data = Some "Default"
       /\ schema.Get d "dc_name" = ptrValue (dcName data)
       /\ schema.Get d "spec.0.cloud.0.openstack.0.username" = ptrValue (username data)
       /\ schema.Get d "spec.0.cloud.0.openstack.0.password" = ptrValue (password data)
       /\ schema.Get d "spec.0.cloud.0.openstack.0.tenant" = ptrValue (tenant data)
       /\ schema.Get d "spec.0.cloud.0.openstack.0.application_credentials_id"
          = ptrValue (applicationCredentialsID data)
       /\ schema.Get d "spec.0.cloud.0.openstack.0.application_credentials_secret"
          = ptrValue (applicationCredentialsSecret data)
       /\ schema.Get d "spec.0.cloud.0.openstack.0.network" = ptrValue (network data)
       /\ schema.Get d "spec.0.cloud.0.openstack.0.subnet_id" = ptrValue (subnetID data).
Proof.
  split; [|apply newOpenstackValidationData_fields].
  split; [|apply newOpenstackValidationData_returns].
  intros [data H].
  destruct (newOpenstackValidationData_fields d data H) as [_ Hgets].
  unfold openstackStringKeys.
  decompose [and] Hgets.
  repeat constructor;
    match goal with
    | Hk : schema.Get d ?key = ptrValue ?p |- stringOrNil (schema.Get d ?key) = true =>
        rewrite Hk; now destruct p
    end.
Qed.

Lemma newOpenstackValidationData_keeps_values_witness :
  domain (snapshotOf prodNetFields) = Some "Default"
  /\ schema.Get (resourceData prodNetFields true) "spec.0.cloud.0.openstack.0.network"
     = ptrValue (network (snapshotOf prodNetFields))
  /\ schema.Get (resourceData prodNetFields true) "spec.0.cloud.0.openstack.0.username"
     = ptrValue (username (snapshotOf prodNetFields)).
Proof.
  destruct (proj2 (newOpenstackValidationData_keeps_values (resourceData prodNetFields true))
              (snapshotOf prodNetFields) eq_refl)
    as [Hdomain [_ [Husername [_ [_ [_ [_ [Hnetwork _]]]]]]]].
  repeat split; assumption.
Defined.

(** A subnet id that is the empty string, which is what a field that is not
    set holds, is checked like any other: when the network resolves as an
    external one and no listed subnet has the empty id, the subnet rule
    yields a diagnostic. *)
Theorem empty_subnet_id_is_checked
  (d : schema.ResourceData) (k : metakubeProviderMeta)
  (data : metakubeResourceClusterOpenstackValidationData)
  (name : string) (nets : list OpenstackNetwork.t) (net : OpenstackNetwork.t)
  (subnets : list OpenstackSubnet.t) :
  newOpenstackValidationData d = Ok data ->
  schema.Get d "spec.0.cloud.0.openstack.0.network" = IStr name ->
  schema.Get d "spec.0.cloud.0.openstack.0.subnet_id" = IStr "" ->
  ListOpenstackNetworks k (setParams data openstack.NewListOpenstackNetworksParams)
  = Payload nets ->
  findNetwork nets name true = Some net ->
  ListOpenstackSubnets k
    (openstack.SetNetworkID (Some (OpenstackNetwork.ID net))
       (setParams data openstack.NewListOpenstackSubnetsParams)) = Payload subnets ->
  Forall (fun item => OpenstackSubnet.ID item <> "") subnets ->
  exists dg, diagnoseOpenstackSubnetWithIDExistsIfSet d k = Ok [dg].
Proof.
  intros Hdata Hnetwork Hsubnet Hnets Hfound Hsubnets Hids.
  destruct (newOpenstackValidationData_fields d data Hdata)
    as [_ [_ [_ [_ [_ [_ [_ [Hn Hs]]]]]]]].
  rewrite Hnetwork in Hn. rewrite Hsubnet in Hs.
  symmetry in Hn, Hs. apply ptrValue_string in Hn, Hs.
  assert (Hmiss : findSubnet subnets "" = None).
  { destruct (findSubnet subnets "") as [item|] eqn:E; [|reflexivity].
    assert (Hin : In "" (map OpenstackSubnet.ID subnets))
      by (apply findSubnet_listed; now exists item).
    apply in_map_iff in Hin. destruct Hin as [s [Hid Hin]].
    rewrite Forall_forall in Hids. now destruct (Hids s Hin). }
  unfold diagnoseOpenstackSubnetWithIDExistsIfSet.
  rewrite Hdata. simpl. rewrite Hn, Hs.
  unfold getNetwork. rewrite Hnets, Hfound.
  unfold getSubnet. rewrite Hsubnets, Hs, Hmiss. simpl.
  now eexists.
Qed.

Lemma empty_subnet_id_is_checked_witness :
  exists dg,
    diagnoseOpenstackSubnetWithIDExistsIfSet
      (resourceData [("spec.0.cloud.0.openstack.0.network", "ext-net")] true)
      extNetClient = Ok [dg].
Proof.
  apply (empty_subnet_id_is_checked
           (resourceData [("spec.0.cloud.0.openstack.0.network", "ext-net")] true)
           extNetClient
           (snapshotOf [("spec.0.cloud.0.openstack.0.network", "ext-net")])
           "ext-net" [prodNet; extNet] extNet [subnetS1; subnetS2]
           eq_refl eq_refl eq_refl eq_refl eq_refl eq_refl).
  repeat constructor; discriminate.
Defined.
